(** * ComfyUI-ACES-EXR-OCIO: the save node, its colour pipeline and its
      configuration cache

    A shallow embedding of [aces_exr_save_ocio.py] (class [ACESEXRSaveOCIO]).
    Python strings are byte strings (the UTF-8 encoding of the text), arrays
    are a shape with row-major data, the file system is a finite map from
    paths to file sizes, and whatever the code cannot decide on its own (the
    network, the EXR library) is an oracle carried by the environment. What
    the code prints is not part of the model. *)

From Stdlib Require Import ZArith QArith Qround Qabs Qpower Ascii String List.
From stdpp Require Import base option list strings gmap.

Local Open Scope string_scope.
Local Open Scope list_scope.

(** ** Python string helpers *)

Module Py.

(** [s[:n]] *)
Fixpoint str_take (n : nat) (s : string) : string :=
  match n, s with
  | S n', String c s' => String c (str_take n' s')
  | _, _ => EmptyString
  end.

(** [sep.join(parts)] *)
Fixpoint join (sep : string) (parts : list string) : string :=
  match parts with
  | [] => ""
  | [p] => p
  | p :: rest => p +:+ sep +:+ join sep rest
  end.

(** [str.lower()] on ASCII text. *)
Definition lower_char (c : ascii) : ascii :=
  let n := nat_of_ascii c in
  if (65 <=? n)%nat && (n <=? 90)%nat then ascii_of_nat (n + 32) else c.

Fixpoint lower (s : string) : string :=
  match s with
  | EmptyString => EmptyString
  | String c s' => String (lower_char c) (lower s')
  end.

(** [s.replace(a, b)] for one-character [a] and [b]. *)
Fixpoint replace_char (a b : ascii) (s : string) : string :=
  match s with
  | EmptyString => EmptyString
  | String c s' =>
      String (if Ascii.eqb c a then b else c) (replace_char a b s')
  end.

(** [str(n)] for a natural number. *)
Fixpoint digits_fuel (fuel n : nat) (acc : string) : string :=
  match fuel with
  | O => acc
  | S fuel' =>
      let acc' := String (ascii_of_nat (48 + n mod 10)) acc in
      if (n <? 10)%nat then acc' else digits_fuel fuel' (n / 10) acc'
  end.

Definition str_nat (n : nat) : string := digits_fuel (S n) n "".

(** [f"{n:0{w}d}"]: zero padding on the left up to width [w]. *)
Definition zfill (w : nat) (s : string) : string :=
  string_of_list_ascii (repeat "0"%char (w - String.length s)) +:+ s.

(** [os.path.join(a, b)] on a POSIX system. *)
Definition ends_with_slash (s : string) : bool :=
  match rev (list_ascii_of_string s) with
  | c :: _ => Ascii.eqb c "/"
  | [] => false
  end.

Definition path_join (a b : string) : string :=
  match b with
  | String "/" _ => b
  | _ => if bool_decide (a = "") || ends_with_slash a then a +:+ b
         else a +:+ "/" +:+ b
  end.

(** [os.path.expanduser("~/...")] with the home directory [home], given
    without a trailing slash. *)
Definition expanduser (home p : string) : string :=
  match p with
  | String "~" rest => home +:+ rest
  | _ => p
  end.

Definition newline : string := String (ascii_of_nat 10) EmptyString.

(** Rows of [n] consecutive elements, the last one possibly shorter. *)
Fixpoint chunks_fuel {A} (fuel n : nat) (l : list A) : list (list A) :=
  match fuel, l with
  | O, _ | _, [] => []
  | S fuel', _ => take n l :: chunks_fuel fuel' n (drop n l)
  end.

Definition chunks {A} (n : nat) (l : list A) : list (list A) :=
  chunks_fuel (length l) n l.

End Py.

(** ** [hashlib.md5]

    The digest of RFC 1321 on 32-bit words held in [Z], every addition wrapped
    modulo [2^32]. *)

Module MD5.
Local Open Scope Z_scope.

Definition wrap32 (x : Z) : Z := x mod 2 ^ 32.

Definition rotl32 (x c : Z) : Z :=
  wrap32 (Z.lor (Z.shiftl x c) (Z.shiftr x (32 - c))).

Definition not32 (x : Z) : Z := Z.lxor x (2 ^ 32 - 1).

Definition shifts : list Z :=
  [ 7; 12; 17; 22; 7; 12; 17; 22; 7; 12; 17; 22; 7; 12; 17; 22;
    5; 9; 14; 20; 5; 9; 14; 20; 5; 9; 14; 20; 5; 9; 14; 20;
    4; 11; 16; 23; 4; 11; 16; 23; 4; 11; 16; 23; 4; 11; 16; 23;
    6; 10; 15; 21; 6; 10; 15; 21; 6; 10; 15; 21; 6; 10; 15; 21 ].

(** [floor (2^32 * |sin (i + 1)|)] *)
Definition K : list Z :=
  [ 3614090360; 3905402710; 606105819; 3250441966;
    4118548399; 1200080426; 2821735955; 4249261313;
    1770035416; 2336552879; 4294925233; 2304563134;
    1804603682; 4254626195; 2792965006; 1236535329;
    4129170786; 3225465664; 643717713; 3921069994;
    3593408605; 38016083; 3634488961; 3889429448;
    568446438; 3275163606; 4107603335; 1163531501;
    2850285829; 4243563512; 1735328473; 2368359562;
    4294588738; 2272392833; 1839030562; 4259657740;
    2763975236; 1272893353; 4139469664; 3200236656;
    681279174; 3936430074; 3572445317; 76029189;
    3654602809; 3873151461; 530742520; 3299628645;
    4096336452; 1126891415; 2878612391; 4237533241;
    1700485571; 2399980690; 4293915773; 2240044497;
    1873313359; 4264355552; 2734768916; 1309151649;
    4149444226; 3174756917; 718787259; 3951481745 ].

(** The [n] low bytes of [x], least significant first. *)
Fixpoint le_bytes (n : nat) (x : Z) : list Z :=
  match n with
  | O => []
  | S n' => x mod 256 :: le_bytes n' (Z.shiftr x 8)
  end.

Fixpoint le_word (bs : list Z) : Z :=
  match bs with
  | [] => 0
  | b :: rest => Z.lor b (Z.shiftl (le_word rest) 8)
  end.

Definition pad (msg : list Z) : list Z :=
  let len := Z.of_nat (length msg) in
  msg ++ [128] ++ repeat 0 (Z.to_nat ((55 - len) mod 64))
      ++ le_bytes 8 (8 * len).

Definition state : Type := Z * Z * Z * Z.

Definition round (M : list Z) (st : state) (i : nat) : state :=
  let '(a, b, c, d) := st in
  let iz := Z.of_nat i in
  let '(f, g) :=
    if iz <? 16 then (Z.lor (Z.land b c) (Z.land (not32 b) d), iz)
    else if iz <? 32 then
      (Z.lor (Z.land d b) (Z.land (not32 d) c), (5 * iz + 1) mod 16)
    else if iz <? 48 then (Z.lxor b (Z.lxor c d), (3 * iz + 5) mod 16)
    else (Z.lxor c (Z.lor b (not32 d)), (7 * iz) mod 16) in
  let f' := wrap32 (f + a + nth i K 0 + nth (Z.to_nat g) M 0) in
  (d, wrap32 (b + rotl32 f' (nth i shifts 0)), b, c).

Definition process_chunk (st : state) (chunk : list Z) : state :=
  let M := map le_word (Py.chunks 4 chunk) in
  let '(a0, b0, c0, d0) := st in
  let '(a, b, c, d) := fold_left (round M) (seq 0 64) st in
  (wrap32 (a0 + a), wrap32 (b0 + b), wrap32 (c0 + c), wrap32 (d0 + d)).

Definition digest (msg : list Z) : list Z :=
  let '(a, b, c, d) :=
    fold_left process_chunk (Py.chunks 64 (pad msg))
      (1732584193, 4023233417, 2562383102, 271733878) in
  le_bytes 4 a ++ le_bytes 4 b ++ le_bytes 4 c ++ le_bytes 4 d.

Definition hex_digit (n : Z) : ascii :=
  ascii_of_nat (Z.to_nat (if n <? 10 then 48 + n else 87 + n)).

Fixpoint hex (bs : list Z) : string :=
  match bs with
  | [] => EmptyString
  | b :: rest =>
      String (hex_digit (b / 16)) (String (hex_digit (b mod 16)) (hex rest))
  end.

(** [url.encode()]: the bytes of the text. *)
Definition encode (s : string) : list Z :=
  map (fun c => Z.of_nat (nat_of_ascii c)) (list_ascii_of_string s).

(** [hashlib.md5(s.encode()).hexdigest()] *)
Definition hexdigest (s : string) : string := hex (digest (encode s)).

End MD5.

(** ** Exceptions *)

Inductive exn : Type :=
  | ValueError (msg : string)
  | IndexError (msg : string).

Inductive outcome (A : Type) : Type :=
  | Returns (a : A)
  | Raises (e : exn).
Arguments Returns {A} a.
Arguments Raises {A} e.

Definition obind {A B} (m : outcome A) (k : A -> outcome B) : outcome B :=
  match m with
  | Returns a => k a
  | Raises e => Raises e
  end.

Notation "'try!' x <- m ; k" := (obind m (fun x => k))
  (at level 10, x pattern, m at level 100, k at level 200).

(** ** The arithmetic of array samples

    NumPy's floating-point operations, as an interface: the development is
    parametric in it, so that what is proved of the pipeline holds for IEEE
    arithmetic as well as for exact arithmetic. A ComfyUI IMAGE tensor holds
    float32 samples, on which [astype(np.float32)] is the identity. *)

Class Sample (T : Type) : Type := {
  flit : Q -> T;            (* a decimal literal of the source *)
  fadd : T -> T -> T;
  fmul : T -> T -> T;
  fdiv : T -> T -> T;
  fpow : T -> T -> T;       (* np.power *)
  fle : T -> T -> bool;     (* a <= b *)
  flt : T -> T -> bool;     (* a < b *)
  fmax : T -> T -> T;       (* np.maximum *)
  fmin : T -> T -> T;       (* np.minimum *)
  ffmt : nat -> T -> string (* f"{x:.{d}f}" *)
}.

(** The laws of an arithmetic without NaN: a total order with the usual
    maximum. IEEE arithmetic satisfies them on the numbers, not on NaN. *)
Class SampleOrder (T : Type) `{Sample T} : Prop := {
  fle_total : forall a b : T, fle a b = true \/ fle b a = true;
  fle_trans : forall a b c : T,
    fle a b = true -> fle b c = true -> fle a c = true;
  flt_fle : forall a b : T, flt a b = negb (fle b a);
  fmax_fle : forall a b : T, fmax a b = if fle b a then a else b;
  fle_flit : forall p q : Q, fle (flit p) (flit q) = Qle_bool p q
}.

(** *** Exact rational arithmetic

    The reference instance. Powers with a fractional exponent [p/q] are the
    [q]-th root of the exact [p]-th power, rounded down by forty steps of
    bisection (the root of one is one); a base that is not positive yields
    zero. *)

Module QSample.
Local Open Scope Q_scope.

Fixpoint bisect (steps : nat) (q : positive) (y lo hi : Q) : Q :=
  match steps with
  | O => lo
  | S n =>
      let mid := Qred ((lo + hi) / 2) in
      if Qle_bool (Qpower mid (Zpos q)) y then bisect n q y mid hi
      else bisect n q y lo mid
  end.

Definition pow (b e : Q) : Q :=
  if Qle_bool b 0 then 0
  else
    let e' := Qred e in
    let y := Qred (Qpower b (Qnum e')) in
    match Qden e' with
    | xH => y
    | q =>
        let hi := if Qle_bool y 1 then 1 else y in
        if Qle_bool (Qpower hi (Zpos q)) y then hi else bisect 40 q y 0 hi
    end.

(** Fixed-point formatting, rounding half to even. *)
Definition round_half_even (x : Q) : Z :=
  let f := Qfloor x in
  let r := x - inject_Z f in
  if Qle_bool r (1 # 2)
  then (if Qeq_bool r (1 # 2) then (if Z.even f then f else f + 1)%Z else f)
  else (f + 1)%Z.

Definition fmt (d : nat) (x : Q) : string :=
  let scale := (10 ^ Z.of_nat d)%Z in
  let n := round_half_even (Qabs x * inject_Z scale) in
  let ip := Py.str_nat (Z.to_nat (n / scale)) in
  let fp := Py.zfill d (Py.str_nat (Z.to_nat (n mod scale))) in
  ((if Qle_bool 0 x then "" else "-") +:+ ip
     +:+ (match d with O => "" | _ => "." +:+ fp end))%string.

Definition le (a b : Q) : bool := Qle_bool a b.

#[global] Instance sample : Sample Q := {|
  flit := Qred;
  fadd := fun a b => Qred (a + b);
  fmul := fun a b => Qred (a * b);
  fdiv := fun a b => Qred (a / b);
  fpow := pow;
  fle := le;
  flt := fun a b => negb (le b a);
  fmax := fun a b => if le b a then a else b;
  fmin := fun a b => if le a b then a else b;
  ffmt := fmt
|}.

End QSample.

(** Exact rational arithmetic is ordered as the laws require. *)
#[global] Instance QSample_order : SampleOrder Q.
Proof.
  split; simpl; unfold QSample.le.
  - intros a b. rewrite !Qle_bool_iff.
    destruct (Qlt_le_dec a b) as [Hlt|Hle]; [left|right]; auto.
    by apply Qlt_le_weak.
  - intros a b c. rewrite !Qle_bool_iff. apply Qle_trans.
  - reflexivity.
  - reflexivity.
  - intros p q. by rewrite !Qred_correct.
Qed.

(** *** Rational samples with a NaN

    [None] is NaN: every operation on it yields NaN and every comparison with
    it is false, as in IEEE arithmetic. Infinities are not represented. *)

Module NaNSample.

Definition lift2 (f : Q -> Q -> Q) (a b : option Q) : option Q :=
  match a, b with
  | Some x, Some y => Some (f x y)
  | _, _ => None
  end.

Definition compare2 (f : Q -> Q -> bool) (a b : option Q) : bool :=
  match a, b with
  | Some x, Some y => f x y
  | _, _ => false
  end.

#[global] Instance sample : Sample (option Q) := {|
  flit := fun q => Some (Qred q);
  fadd := lift2 fadd;
  fmul := lift2 fmul;
  fdiv := lift2 fdiv;
  fpow := lift2 fpow;
  fle := compare2 fle;
  flt := compare2 flt;
  fmax := lift2 fmax;
  fmin := lift2 fmin;
  ffmt := fun d x => match x with Some q => ffmt d q | None => "nan" end
|}.

End NaNSample.

(** ** Arrays

    A NumPy array or a torch tensor: its shape and its samples in row-major
    order. *)

Record ndarray (T : Type) : Type := NDArray {
  shape : list nat;
  data : list T
}.
Arguments NDArray {T} shape data.
Arguments shape {T} n.
Arguments data {T} n.

Definition size_of (sh : list nat) : nat := fold_right Nat.mul 1 sh.

Definition size {T} (a : ndarray T) : nat := size_of (shape a).

(** [a[i]]: the [i]-th slice along the first axis. *)
Definition getitem {T} (a : ndarray T) (i : nat) : outcome (ndarray T) :=
  match shape a with
  | n :: rest =>
      if (i <? n)%nat then
        Returns (NDArray rest
                   (take (size_of rest) (drop (i * size_of rest) (data a))))
      else
        Raises (IndexError ("index " +:+ Py.str_nat i
                  +:+ " is out of bounds for dimension 0 with size "
                  +:+ Py.str_nat n))
  | [] => Raises (IndexError
                    "invalid index of a 0-dim tensor")
  end.

(** ** ColorSpaceConverter *)

Module Matrices.
Local Open Scope Q_scope.

Definition SRGB_TO_ACES2065 : list (list Q) :=
  [ [0.4395677; 0.3831666; 0.1772656];
    [0.0897923; 0.8134201; 0.0967876];
    [0.0175439; 0.1115623; 0.8708938] ].

Definition ACES2065_TO_ACESCG : list (list Q) :=
  [ [1.451439316; -0.236510746; -0.214928570];
    [-0.076553773; 1.176229700; -0.099675927];
    [0.008316148; -0.006032449; 0.997716301] ].

Definition srgb_threshold : Q := 0.04045.
Definition srgb_slope : Q := 12.92.
Definition srgb_offset : Q := 0.055.
Definition srgb_scale : Q := 1.055.
Definition srgb_gamma : Q := 2.4.
End Matrices.

Section ColorSpaceConverter.
Context {T : Type} `{Sample T}.

Definition SRGB_TO_ACES2065_MATRIX : list (list T) :=
  map (map flit) Matrices.SRGB_TO_ACES2065.

Definition ACES2065_TO_ACESCG_MATRIX : list (list T) :=
  map (map flit) Matrices.ACES2065_TO_ACESCG.

(** One sample of [srgb_to_linear]:
    [np.where(v <= 0.04045, v / 12.92, np.power((v + 0.055) / 1.055, 2.4))] *)
Definition srgb_to_linear_sample (v : T) : T :=
  if fle v (flit Matrices.srgb_threshold)
  then fdiv v (flit Matrices.srgb_slope)
  else fpow (fdiv (fadd v (flit Matrices.srgb_offset))
               (flit Matrices.srgb_scale))
         (flit Matrices.srgb_gamma).

Definition srgb_to_linear (image : ndarray T) : ndarray T :=
  NDArray (shape image) (map srgb_to_linear_sample (data image)).

(** A row of [np.dot(flat_image, matrix.T)]: entry [i] is the sum over [j]
    of [row[j] * matrix[i][j]]. *)
Definition dot (row mrow : list T) : T :=
  match zip_with fmul row mrow with
  | [] => flit 0
  | p :: ps => fold_left fadd ps p
  end.

Definition matvec (matrix : list (list T)) (row : list T) : list T :=
  map (dot row) matrix.

Definition matrix_transform (image : ndarray T) (matrix : list (list T))
  : outcome (ndarray T) :=
  let original_shape := shape image in
  if (size image mod 3 =? 0)%nat then
    let flat_image := Py.chunks 3 (data image) in
    let transformed := map (matvec matrix) flat_image in
    Returns (NDArray original_shape (concat transformed))
  else
    Raises (ValueError ("cannot reshape array of size "
              +:+ Py.str_nat (size image) +:+ " into shape (3)")).

Definition unsupported_description (input_cs output_cs : string) : string :=
  "Без конвертации (" +:+ input_cs +:+ " -> " +:+ output_cs
    +:+ " недоступна)".

Definition convert_colorspace (image_array : ndarray T)
    (input_cs output_cs : string) : outcome (ndarray T * string) :=
  if decide (input_cs = output_cs) then
    Returns (image_array, "Без конвертации")
  else if decide (input_cs = "sRGB" /\ output_cs = "ACES2065-1") then
    let linear_image := srgb_to_linear image_array in
    try! result <- matrix_transform linear_image SRGB_TO_ACES2065_MATRIX;
    Returns (result, "Matrix: sRGB -> Linear -> ACES2065-1")
  else if decide (input_cs = "ACES2065-1" /\ output_cs = "ACEScg") then
    try! result <- matrix_transform image_array ACES2065_TO_ACESCG_MATRIX;
    Returns (result, "Matrix: ACES2065-1 -> ACEScg")
  else if decide (input_cs = "sRGB" /\ output_cs = "ACEScg") then
    let linear_image := srgb_to_linear image_array in
    try! aces2065 <- matrix_transform linear_image SRGB_TO_ACES2065_MATRIX;
    try! result <- matrix_transform aces2065 ACES2065_TO_ACESCG_MATRIX;
    Returns (result, "Matrix: sRGB -> Linear -> ACES2065-1 -> ACEScg")
  else if decide (input_cs = "Linear sRGB" /\ output_cs = "ACES2065-1") then
    try! result <- matrix_transform image_array SRGB_TO_ACES2065_MATRIX;
    Returns (result, "Matrix: Linear sRGB -> ACES2065-1")
  else
    Returns (image_array, unsupported_description input_cs output_cs).

(** The buffer of a conversion result. *)
Definition converted_buffer (r : outcome (ndarray T * string))
  : outcome (ndarray T) :=
  try! p <- r; Returns (fst p).

(** The pairs that [convert_colorspace] sends through a matrix. *)
Definition matrix_pairs : list (string * string) :=
  [ ("sRGB", "ACES2065-1"); ("ACES2065-1", "ACEScg"); ("sRGB", "ACEScg");
    ("Linear sRGB", "ACES2065-1") ].

(** [tensor.squeeze(0)] *)
Definition squeeze0 (tensor : ndarray T) : ndarray T :=
  match shape tensor with
  | 1 :: rest => NDArray rest (data tensor)
  | _ => tensor
  end.

(** [np.clip(array, 0.0, None)] *)
Definition clip_below (lo : T) (array : ndarray T) : ndarray T :=
  NDArray (shape array) (map (fun v => fmax v lo) (data array)).

Definition tensor_to_numpy (tensor : ndarray T) : ndarray T :=
  let tensor :=
    if (length (shape tensor) =? 4)%nat then squeeze0 tensor else tensor in
  clip_below (flit 0) tensor.

End ColorSpaceConverter.

(** ** The world outside the node

    The files on disk (path to size in bytes), the network requests issued so
    far, and the images handed to the EXR library's [write_image]. One process
    runs at a time: nothing else changes the files between two steps. *)

Inductive pixel_format : Type := HALF | FLOAT.

Record ImageSpec : Type := {
  width : nat;
  height : nat;
  nchannels : nat;
  format : pixel_format;
  attributes : list (string * string)
}.

Record World (T : Type) : Type := {
  files : gmap string nat;
  requests : list string;
  exr_writes : list (string * ImageSpec * ndarray T)
}.
Arguments files {T} w.
Arguments requests {T} w.
Arguments exr_writes {T} w.

(** What the block [with urlopen(req, timeout=30) as response: with
    open(cache_path, 'wb') as f: f.write(response.read())] does. *)
Inductive fetch_outcome : Type :=
  | HTTPError (code : nat) (reason : string)
  | URLError (reason : string)
  (* another exception before the cache file is opened *)
  | FetchError (msg : string)
  (* an exception once the cache file is open: [written] bytes stay *)
  | Interrupted (written : nat) (msg : string)
  (* the whole body, [body_size] bytes, is in the cache file *)
  | Body (body_size : nat).

(** What [ImageOutput.create], [open], [write_image] and [close] do. *)
Inductive exr_outcome : Type :=
  | CreateRefused
  | OpenRefused
  | WriteRefused (file_size : nat)
  | Written (file_size : nat)
  | LibraryError (msg : string).

Record Env (T : Type) : Type := {
  OIIO_AVAILABLE : bool;
  output_dir : string;
  ocio_cache_dir : string;
  home : string;
  urlopen : World T -> string -> fetch_outcome;
  oiio : World T -> string -> ImageSpec -> ndarray T -> exr_outcome
}.
Arguments OIIO_AVAILABLE {T} e.
Arguments output_dir {T} e.
Arguments ocio_cache_dir {T} e.
Arguments home {T} e.
Arguments urlopen {T} e w url.
Arguments oiio {T} e w filepath spec image.

(** ** ConfigResolver *)

Definition preset_ocio_urls : gmap string string :=
  list_to_map
    [ ("ACES 1.3 CG Config",
       "https://github.com/AcademySoftwareFoundation/OpenColorIO-Config-ACES/releases/download/v2.1.0-v2.2.0/cg-config-v2.2.0_aces-v1.3_ocio-v2.4.ocio");
      ("ACES 1.3 Studio Config",
       "https://github.com/AcademySoftwareFoundation/OpenColorIO-Config-ACES/releases/download/v2.1.0-v2.2.0/studio-config-v2.2.0_aces-v1.3_ocio-v2.4.ocio");
      ("ACES 2.0 CG Config",
       "https://github.com/AcademySoftwareFoundation/OpenColorIO-Config-ACES/releases/download/v3.0.0/cg-config-v3.0.0_aces-v2.0_ocio-v2.4.ocio");
      ("ACES 2.0 Studio Config",
       "https://github.com/AcademySoftwareFoundation/OpenColorIO-Config-ACES/releases/download/v3.0.0/studio-config-v3.0.0_aces-v2.0_ocio-v2.4.ocio") ].

(** [hashlib.md5(url.encode()).hexdigest()[:8]] *)
Definition url_hash (url : string) : string :=
  Py.str_take 8 (MD5.hexdigest url).

(** [f"ocio_{url_hash}_{filename_hint}"] *)
Definition cache_filename (url filename_hint : string) : string :=
  "ocio_" +:+ url_hash url +:+ "_" +:+ filename_hint.

Definition default_hint : string := "config.ocio".

(** [f"{preset.lower().replace(' ', '_')}.ocio"] *)
Definition preset_hint (preset : string) : string :=
  Py.replace_char " " "_" (Py.lower preset) +:+ ".ocio".

Section ConfigResolver.
Context {T : Type}.
Variable env : Env T.

Definition exists_path (w : World T) (p : string) : bool :=
  bool_decide (is_Some (files w !! p)).

Definition with_files (w : World T) (fs : gmap string nat) : World T :=
  {| files := fs; requests := requests w; exr_writes := exr_writes w |}.

Definition with_request (w : World T) (url : string) : World T :=
  {| files := files w; requests := requests w ++ [url];
     exr_writes := exr_writes w |}.

Definition cache_path_of (url filename_hint : string) : string :=
  Py.path_join (ocio_cache_dir env) (cache_filename url filename_hint).

Definition download_ocio_config (url filename_hint : string) (w : World T)
  : option string * World T :=
  let cache_path := cache_path_of url filename_hint in
  if exists_path w cache_path then (Some cache_path, w)
  else
    let w1 := with_request w url in
    match urlopen env w url with
    | HTTPError _ _ | URLError _ | FetchError _ => (None, w1)
    | Interrupted written _ =>
        (None, with_files w1 (<[cache_path := written]> (files w1)))
    | Body file_size =>
        let w2 := with_files w1 (<[cache_path := file_size]> (files w1)) in
        if (file_size <? 1000)%nat
        then (None, with_files w2 (delete cache_path (files w2)))
        else (Some cache_path, w2)
    end.

Definition auto_paths : list string :=
  [ "./ocio_configs/cg-config-v2.2.0_aces-v1.3_ocio-v2.4.ocio";
    "./ocio_configs/studio-config-v2.2.0_aces-v1.3_ocio-v2.4.ocio";
    "./ocio_configs/config.ocio";
    "./ocio_configs/aces_1.2/config.ocio";
    Py.expanduser (home env)
      "~/ComfyUI/ocio_configs/cg-config-v2.2.0_aces-v1.3_ocio-v2.4.ocio" ].

Definition find_or_download_ocio_config
    (source path url preset : string) (w : World T)
  : option string * World T :=
  if decide (source = "Local Path" /\ path <> "") then
    if exists_path w path then (Some path, w) else (None, w)
  else if decide (source = "URL" /\ url <> "") then
    download_ocio_config url default_hint w
  else if decide (source = "Preset") then
    match preset_ocio_urls !! preset with
    | Some preset_url =>
        if decide (preset_url <> "")
        then download_ocio_config preset_url (preset_hint preset) w
        else (None, w)
    | None => (None, w)
    end
  else if decide (source = "Auto") then
    match find (exists_path w) auto_paths with
    | Some auto_path => (Some auto_path, w)
    | None =>
        match preset_ocio_urls !! "ACES 1.3 CG Config" with
        | Some preset_url =>
            download_ocio_config preset_url "aces13_cg.ocio" w
        | None => (None, w)
        end
    end
  else (None, w).

End ConfigResolver.

(** ** The EXR writer and the save operation *)

Section Save.
Context {T : Type} `{Sample T}.
Variable env : Env T.

(** [np.min(a)] and [np.max(a)]: nothing on an empty array (a ValueError
    in NumPy). *)
Definition reduce (f : T -> T -> T) (l : list T) : option T :=
  match l with
  | [] => None
  | x :: xs => Some (fold_left f xs x)
  end.

Definition colorspace_attributes (colorspace : string)
  : list (string * string) :=
  if decide (colorspace = "ACES2065-1") then
    [ ("chromaticities",
       "0.7347,0.2653,0.0000,1.0000,0.0001,-0.0770,0.32168,0.33767");
      ("WhitePoint", "D60"); ("primaries", "ACES");
      ("Encoding", "ACES2065-1"); ("TransferFunction", "Linear");
      ("Gamut", "AP0") ]
  else if decide (colorspace = "ACEScg") then
    [ ("chromaticities",
       "0.713,0.293,0.165,0.830,0.128,0.044,0.32168,0.33767");
      ("WhitePoint", "D60"); ("primaries", "ACEScg");
      ("Encoding", "ACEScg"); ("TransferFunction", "Linear");
      ("Gamut", "AP1") ]
  else [].

Definition exr_error (msg : string) : bool * string :=
  (false, "Ошибка EXR: " +:+ msg).

Definition with_exr_write (w : World T) (filepath : string)
    (spec : ImageSpec) (image : ndarray T) (file_size : nat) : World T :=
  {| files := <[filepath := file_size]> (files w);
     requests := requests w;
     exr_writes := exr_writes w ++ [(filepath, spec, image)] |}.

(** The whole body is under [try: ... except Exception as e: return False,
    f"..."]: every failure comes back as a value. *)
Definition save_exr_aces (image_array : ndarray T)
    (filepath colorspace compression pixel_type : string) (w : World T)
  : (bool * string) * World T :=
  match shape image_array with
  | [height; width; channels] =>
      match reduce fmin (data image_array), reduce fmax (data image_array)
      with
      | Some min_val, Some max_val =>
          let spec :=
            {| width := width; height := height; nchannels := channels;
               format := if decide (pixel_type = "half") then HALF
                         else FLOAT;
               attributes :=
                 [ ("compression", compression);
                   ("oiio:ColorSpace", colorspace);
                   ("ColorSpace", colorspace);
                   ("Software", "ComfyUI ACES EXR OCIO Node");
                   ("Description", "ACES " +:+ colorspace
                      +:+ " EXR from ComfyUI with OCIO support");
                   ("ComfyUI:Node", "ACESEXRSaveOCIO");
                   ("ComfyUI:Workflow", "WAN -> sRGB -> ACES") ]
                 ++ colorspace_attributes colorspace
                 ++ [ ("OriginalRange", "[" +:+ ffmt 6 min_val +:+ ", "
                         +:+ ffmt 6 max_val +:+ "]") ]
                 ++ (if flt (flit 1) max_val
                     then [ ("HDR", "true");
                            ("MaxLuminance", ffmt 3 max_val) ]
                     else []) |} in
          match oiio env w filepath spec image_array with
          | CreateRefused =>
              (exr_error ("Невозможно создать EXR output для "
                            +:+ filepath), w)
          | OpenRefused =>
              (exr_error ("Невозможно открыть " +:+ filepath
                            +:+ " для записи EXR"), w)
          | WriteRefused file_size =>
              (exr_error "Ошибка записи EXR данных",
               with_exr_write w filepath spec image_array file_size)
          | LibraryError msg => (exr_error msg, w)
          | Written file_size =>
              ((true, "EXR " +:+ colorspace +:+ " (" +:+ pixel_type
                        +:+ ", " +:+ compression +:+ ", range: ["
                        +:+ ffmt 3 min_val +:+ ", " +:+ ffmt 3 max_val
                        +:+ "])"),
               with_exr_write w filepath spec image_array file_size)
          end
      | _, _ =>
          (exr_error
             "zero-size array to reduction operation minimum which has no identity",
           w)
      end
  | sh =>
      (exr_error
         (if (length sh <? 3)%nat
          then "not enough values to unpack (expected 3, got "
                 +:+ Py.str_nat (length sh) +:+ ")"
          else "too many values to unpack (expected 3)"), w)
  end.

Variables (images : ndarray T).
Variables (filename_prefix colorspace compression pixel_type : string).
Variables (input_colorspace : string).

Definition batch_filename (i : nat) : string :=
  filename_prefix +:+ "_" +:+ Py.zfill 5 (Py.str_nat i) +:+ ".exr".

Definition single_filename : string := filename_prefix +:+ ".exr".

Definition frame_label (i total_frames : nat) : string :=
  "Frame " +:+ Py.str_nat (i + 1) +:+ "/" +:+ Py.str_nat total_frames.

(** The accumulators of the save loop: [saved_files] and
    [conversion_infos]. *)
Definition report : Type := list string * list string.

(** One iteration of [for i in range(total_frames)]. *)
Definition batch_frame (total_frames i : nat) (acc : report)
    (w : World T) : outcome report * World T :=
  let '(saved_files, conversion_infos) := acc in
  match getitem images i with
  | Raises e => (Raises e, w)
  | Returns image_tensor =>
      let image_array := tensor_to_numpy image_tensor in
      match convert_colorspace image_array input_colorspace colorspace with
      | Raises e => (Raises e, w)
      | Returns (converted_array, conv_info) =>
          let filename := batch_filename i in
          let filepath := Py.path_join (output_dir env) filename in
          let '((success, format_info), w') :=
            save_exr_aces converted_array filepath colorspace compression
              pixel_type w in
          if success then
            (Returns ((saved_files ++ [filepath]),
                      (conversion_infos ++
                        [frame_label i total_frames +:+ ": " +:+ conv_info
                           +:+ " -> " +:+ format_info])), w')
          else
            (Returns (saved_files,
                      (conversion_infos ++
                        [frame_label i total_frames +:+ ": ОШИБКА - "
                           +:+ format_info])), w')
      end
  end.

Fixpoint batch_loop (total_frames : nat) (indices : list nat)
    (acc : report) (w : World T) : outcome report * World T :=
  match indices with
  | [] => (Returns acc, w)
  | i :: rest =>
      match batch_frame total_frames i acc w with
      | (Returns acc', w') => batch_loop total_frames rest acc' w'
      | (Raises e, w') => (Raises e, w')
      end
  end.

(** The [else] branch: one image. *)
Definition single_image (acc : report) (w : World T)
  : outcome report * World T :=
  let '(saved_files, conversion_infos) := acc in
  match (if (length (shape images) =? 4)%nat then getitem images 0
         else Returns images) with
  | Raises e => (Raises e, w)
  | Returns image_tensor =>
      let image_array := tensor_to_numpy image_tensor in
      match convert_colorspace image_array input_colorspace colorspace with
      | Raises e => (Raises e, w)
      | Returns (converted_array, conv_info) =>
          let filename := single_filename in
          let filepath := Py.path_join (output_dir env) filename in
          let '((success, format_info), w') :=
            save_exr_aces converted_array filepath colorspace compression
              pixel_type w in
          if success then
            (Returns ((saved_files ++ [filepath]),
                      (conversion_infos ++
                        [conv_info +:+ " -> " +:+ format_info])), w')
          else
            (Returns (saved_files,
                      (conversion_infos
                         ++ ["ОШИБКА - " +:+ format_info])), w')
      end
  end.

Definition oiio_missing_message : string :=
  "❌ OpenImageIO недоступен! Установите: pip install OpenImageIO или conda install -c conda-forge openimageio".

(** [len(images.shape) == 4 and images.shape[0] > 1] *)
Definition is_batch : bool :=
  (length (shape images) =? 4)%nat && (1 <? hd 0 (shape images))%nat.

(** The two accumulators once every image is processed. *)
Definition save_frames (w : World T) : outcome report * World T :=
  if is_batch then
    let total_frames := hd 0 (shape images) in
    batch_loop total_frames (seq 0 total_frames) ([], []) w
  else single_image ([], []) w.

(** Per-frame views of the batch loop, for stating what it does. *)

Definition batch_filepath (i : nat) : string :=
  Py.path_join (output_dir env) (batch_filename i).

(** The steps of frame [i] before the write: [images[i]],
    [tensor_to_numpy], [convert_colorspace]. *)
Definition frame_conversion (i : nat) : outcome (ndarray T * string) :=
  try! image_tensor <- getitem images i;
  convert_colorspace (tensor_to_numpy image_tensor) input_colorspace
    colorspace.

(** The world in which frame [k] is processed: the one the loop leaves
    after the frames before [k]. *)
Definition world_before_frame (total_frames k : nat) (w : World T)
  : World T :=
  snd (batch_loop total_frames (seq 0 k) ([], []) w).

(** The description of the conversion of frame [k] and the answer of
    [save_exr_aces] for it. *)
Definition frame_write (total_frames k : nat) (w : World T)
  : outcome (string * (bool * string)) :=
  try! r <- frame_conversion k;
  Returns (snd r,
           fst (save_exr_aces (fst r) (batch_filepath k) colorspace
                  compression pixel_type
                  (world_before_frame total_frames k w))).

Definition frame_ok (total_frames : nat) (w : World T) (k : nat) : bool :=
  match frame_write total_frames k w with
  | Returns (_, (success, _)) => success
  | Raises _ => false
  end.

Definition frame_entry (total_frames : nat) (w : World T) (k : nat)
  : string :=
  match frame_write total_frames k w with
  | Returns (conv_info, (true, format_info)) =>
      frame_label k total_frames +:+ ": " +:+ conv_info +:+ " -> "
        +:+ format_info
  | Returns (_, (false, format_info)) =>
      frame_label k total_frames +:+ ": ОШИБКА - " +:+ format_info
  | Raises _ => ""
  end.

Definition save_aces_exr
    (ocio_config_source ocio_config_path ocio_config_url ocio_preset
       : string)
    (w : World T) : outcome (string * string) * World T :=
  if negb (OIIO_AVAILABLE env) then
    (Returns ("", oiio_missing_message), w)
  else
    let '(ocio_config_path_resolved, w1) :=
      find_or_download_ocio_config env ocio_config_source ocio_config_path
        ocio_config_url ocio_preset w in
    match save_frames w1 with
    | (Raises e, w2) => (Raises e, w2)
    | (Returns (saved_files, conversion_infos), w2) =>
        let exr_path := hd "" saved_files in
        let conversion_info := Py.join Py.newline conversion_infos in
        (Returns (exr_path, conversion_info), w2)
    end.

End Save.

(** The number of samples of one frame: of [images[0]] for a 4-dimensional
    input, of the input itself otherwise. *)
Definition frame_size (sh : list nat) : nat :=
  if (length sh =? 4)%nat then size_of (tl sh) else size_of sh.

(** ** Concrete inputs

    An environment on exact rational samples in which every download yields
    5000 bytes and every EXR write succeeds, an empty world, and a few
    pixels. *)

Module Demo.
Import QSample.
Local Open Scope Q_scope.

Definition world : World Q :=
  {| files := ∅; requests := []; exr_writes := [] |}.

Definition env : Env Q :=
  {| OIIO_AVAILABLE := true;
     output_dir := "output";
     ocio_cache_dir := "ocio_cache";
     home := "/home/user";
     urlopen := fun _ _ => Body 5000;
     oiio := fun _ _ _ _ => Written 4096 |}.

(** As [env], with downloads of 512 bytes. *)
Definition env_small_download : Env Q :=
  {| OIIO_AVAILABLE := true;
     output_dir := "output";
     ocio_cache_dir := "ocio_cache";
     home := "/home/user";
     urlopen := fun _ _ => Body 512;
     oiio := fun _ _ _ _ => Written 4096 |}.

(** As [env], with downloads that break off before the first byte. *)
Definition env_interrupted_download : Env Q :=
  {| OIIO_AVAILABLE := true;
     output_dir := "output";
     ocio_cache_dir := "ocio_cache";
     home := "/home/user";
     urlopen := fun _ _ => Interrupted 0 "timed out";
     oiio := fun _ _ _ _ => Written 4096 |}.

(** As [env], but the EXR library refuses to open the second frame. *)
Definition env_second_frame_fails : Env Q :=
  {| OIIO_AVAILABLE := true;
     output_dir := "output";
     ocio_cache_dir := "ocio_cache";
     home := "/home/user";
     urlopen := fun _ _ => Body 5000;
     oiio := fun _ filepath _ _ =>
               if bool_decide (filepath = "output/render_00001.exr")
               then OpenRefused else Written 4096 |}.

(** One green pixel. *)
Definition green_pixel : ndarray Q := NDArray [1; 1; 3]%nat [0; 1; 0].

(** A batch of one frame of one pixel. *)
Definition batch_of_one : ndarray Q :=
  NDArray [1; 1; 1; 3]%nat [0.5; 0.25; 2].

(** A batch of three frames of one pixel. *)
Definition batch_of_three : ndarray Q :=
  NDArray [3; 1; 1; 3]%nat [0; 1; 0; 1; 1; 1; 0.5; 0.2; 3].

(** One RGBA pixel. *)
Definition rgba_pixel : ndarray Q := NDArray [1; 1; 4]%nat [0; 1; 0; 1].

(** A frame with a negative sample and one above 1.0. *)
Definition raw_frame : ndarray Q :=
  NDArray [1; 1; 3]%nat [-0.5; 0.02; 1.5].

(** A frame whose first sample is NaN. *)
Definition nan_frame : ndarray (option Q) :=
  NDArray [1; 1; 3]%nat [None; Some 0.5; Some 2].

Definition url_a : string := "https://example.com/ocio/config-35025.ocio".
Definition url_b : string := "https://example.com/ocio/config-61921.ocio".
End Demo.

(** ** The package loader ([__init__.py])

    The loader tries three modules in turn and merges the node tables of those
    that import. A class is represented by its name. *)

Module Package.

(** What [from .module import NODE_CLASS_MAPPINGS as NCM,
    NODE_DISPLAY_NAME_MAPPINGS as NDM] does. *)
Inductive import_outcome : Type :=
  | Imported (class_mappings display_mappings : gmap string string)
  | RaisesImportError (msg : string)
  | RaisesOther (msg : string).

Record tables : Type := {
  NODE_CLASS_MAPPINGS : gmap string string;
  NODE_DISPLAY_NAME_MAPPINGS : gmap string string
}.

Definition no_tables : tables :=
  {| NODE_CLASS_MAPPINGS := ∅; NODE_DISPLAY_NAME_MAPPINGS := ∅ |}.

(** [d.update(new)]: the entries of [new] replace those of [d]. *)
Definition update (d new : gmap string string) : gmap string string :=
  new ∪ d.

(** One inner [try: from ... import ...; update; update; except ImportError:
    pass]. [None] stands for an exception that is not an ImportError and
    leaves the inner block. *)
Definition try_module (o : import_outcome) (t : tables) : option tables :=
  match o with
  | Imported ncm ndm =>
      Some {| NODE_CLASS_MAPPINGS := update (NODE_CLASS_MAPPINGS t) ncm;
              NODE_DISPLAY_NAME_MAPPINGS :=
                update (NODE_DISPLAY_NAME_MAPPINGS t) ndm |}
  | RaisesImportError _ => Some t
  | RaisesOther _ => None
  end.

(** The tables the package exports, given what the imports of
    [robust_aces_save], [aces_exr_save_ocio] and [aces_exr_save] do. *)
Definition load (robust_aces_save aces_exr_save_ocio aces_exr_save
                   : import_outcome) : tables :=
  match try_module robust_aces_save no_tables with
  | None => no_tables
  | Some t1 =>
      match try_module aces_exr_save_ocio t1 with
      | None => no_tables
      | Some t2 =>
          match try_module aces_exr_save t2 with
          | None => no_tables
          | Some t3 =>
              if bool_decide (NODE_CLASS_MAPPINGS t3 = ∅) then no_tables
              else t3
          end
      end
  end.

(** The tables of [aces_exr_save_ocio.py] itself. *)
Definition aces_exr_save_ocio_module : import_outcome :=
  Imported {[ "ACESEXRSaveOCIO" := "ACESEXRSaveOCIO" ]}
           {[ "ACESEXRSaveOCIO" := "Save ACES EXR (OCIO)" ]}.

End Package.

(** ** Reading aids for the statements *)

(** The number a string of decimal digits denotes. *)
Fixpoint decimal_value (s : string) : nat :=
  match s with
  | EmptyString => 0
  | String c rest =>
      (nat_of_ascii c - 48) * 10 ^ String.length rest + decimal_value rest
  end.

(** [c] is one of [0-9a-f]. *)
Definition is_lower_hex (c : ascii) : bool :=
  let n := nat_of_ascii c in
  ((48 <=? n) && (n <=? 57) || (97 <=? n) && (n <=? 102))%nat.

(** A fetch that fails before the cache file is opened. *)
Definition fails_before_open (o : fetch_outcome) : bool :=
  match o with
  | HTTPError _ _ | URLError _ | FetchError _ => true
  | Interrupted _ _ | Body _ => false
  end.

(** The URLs of the preset table. *)
Definition preset_urls : list string :=
  map snd (map_to_list preset_ocio_urls).

(** Between two worlds: the requests are the same and at most [n] more
    images went to the EXR library. *)
Definition quiet {T : Type} (n : nat) (w w' : World T) : Prop :=
  requests w' = requests w /\
  length (exr_writes w') <= length (exr_writes w) + n.

(** ** More concrete inputs *)

Module Cases.
Local Open Scope Q_scope.

(** As [Demo.env], with a server that answers 404. *)
Definition env_http_error : Env Q :=
  {| OIIO_AVAILABLE := true;
     output_dir := "output";
     ocio_cache_dir := "ocio_cache";
     home := "/home/user";
     urlopen := fun _ _ => HTTPError 404 "Not Found";
     oiio := fun _ _ _ _ => Written 4096 |}.

(** A world with one local configuration of 2000 bytes. *)
Definition world_with_local_config : World Q :=
  {| files := {[ "./ocio_configs/config.ocio" := 2000%nat ]};
     requests := [];
     exr_writes := [] |}.

End Cases.

(** * Properties *)

(** ** MD5 test vectors *)

Example md5_empty : MD5.hexdigest "" = "d41d8cd98f00b204e9800998ecf8427e".
Proof. vm_compute. reflexivity. Qed.

Example md5_abc : MD5.hexdigest "abc" = "900150983cd24fb0d6963f7d28e17f72".
Proof. vm_compute. reflexivity. Qed.

Example md5_preset_url :
  MD5.hexdigest "https://github.com/AcademySoftwareFoundation/OpenColorIO-Config-ACES/releases/download/v2.1.0-v2.2.0/cg-config-v2.2.0_aces-v1.3_ocio-v2.4.ocio"
  = "8fc0c499f3ee448f02977ac91a95717f".
Proof. vm_compute. reflexivity. Qed.

(** ** Strings *)

Lemma length_str_take (n : nat) (s : string) :
  n <= String.length s -> String.length (Py.str_take n s) = n.
Proof.
  revert s. induction n as [|n IH]; intros [|c s] Hn; simpl in *; try lia.
  rewrite IH; lia.
Qed.

Lemma append_inj_length (a b x y : string) :
  String.length a = String.length b ->
  a +:+ x = b +:+ y -> a = b /\ x = y.
Proof.
  revert b. induction a as [|c a IH]; intros [|d b] Hlen Heq;
    simpl in *; try discriminate.
  - split; [reflexivity | exact Heq].
  - injection Heq as -> Heq. injection Hlen as Hlen.
    destruct (IH b Hlen Heq) as [-> ->]. split; reflexivity.
Qed.

Lemma length_hex (bs : list Z) :
  String.length (MD5.hex bs) = 2 * length bs.
Proof. induction bs as [|b bs IH]; simpl; [reflexivity | rewrite IH; lia]. Qed.

Lemma length_le_bytes (n : nat) (x : Z) : length (MD5.le_bytes n x) = n.
Proof.
  revert x. induction n as [|n IH]; intros x; simpl; [|rewrite IH]; reflexivity.
Qed.

Lemma length_digest (msg : list Z) : length (MD5.digest msg) = 16.
Proof.
  unfold MD5.digest.
  destruct (fold_left _ _ _) as [[[a b] c] d].
  rewrite !length_app, !length_le_bytes. reflexivity.
Qed.

Lemma length_url_hash (url : string) : String.length (url_hash url) = 8.
Proof.
  unfold url_hash. apply length_str_take.
  unfold MD5.hexdigest. rewrite length_hex, length_digest. lia.
Qed.

(** The cache filename determines, and is determined by, the 8-digit hash
    of the URL and the filename hint. *)
Lemma cache_filename_inj (url1 hint1 url2 hint2 : string) :
  cache_filename url1 hint1 = cache_filename url2 hint2 <->
  url_hash url1 = url_hash url2 /\ hint1 = hint2.
Proof.
  unfold cache_filename. split.
  - intros Heq.
    apply (append_inj_length "ocio_" "ocio_") in Heq as [_ Heq];
      [|reflexivity].
    apply append_inj_length in Heq as [Hh Heq];
      [|by rewrite !length_url_hash].
    apply (append_inj_length "_" "_") in Heq as [_ Heq]; [|reflexivity].
    split; assumption.
  - intros [-> ->]. reflexivity.
Qed.

(** ** ConfigResolver: the cache *)

Lemma exists_path_lookup {T} (w : World T) (p : string) (n : nat) :
  files w !! p = Some n -> exists_path w p = true.
Proof.
  intros Hp. unfold exists_path. apply bool_decide_eq_true. by exists n.
Qed.

Lemma exists_path_false {T} (w : World T) (p : string) :
  exists_path w p = false -> files w !! p = None.
Proof.
  unfold exists_path. intros Hp%bool_decide_eq_false.
  destruct (files w !! p) as [n|] eqn:E; [|reflexivity].
  exfalso. apply Hp. by exists n.
Qed.

(** A file already in the cache is returned as it is, whatever its size,
    and the world does not change: no request is logged. *)
Lemma download_cache_hit {T} (env : Env T) (url hint : string)
    (w : World T) (n : nat) :
  files w !! cache_path_of env url hint = Some n ->
  download_ocio_config env url hint w = (Some (cache_path_of env url hint), w).
Proof.
  intros Hp. unfold download_ocio_config.
  by rewrite (exists_path_lookup _ _ _ Hp).
Qed.

(** A path that comes back is the cache path, and its file is there. *)
Lemma download_some {T} (env : Env T) (url hint : string)
    (w w1 : World T) (p : string) :
  download_ocio_config env url hint w = (Some p, w1) ->
  p = cache_path_of env url hint /\ is_Some (files w1 !! p).
Proof.
  unfold download_ocio_config.
  destruct (exists_path w _) eqn:Hex.
  - intros [= <- <-]. split; [reflexivity|].
    by apply bool_decide_eq_true in Hex.
  - destruct (urlopen env w url) as [| | | |n]; try discriminate.
    destruct (n <? 1000)%nat; [discriminate|].
    intros [= <- <-]. split; [reflexivity|].
    simpl. rewrite lookup_insert_eq. by eexists.
Qed.

(** The size check guards completed downloads only: a download that breaks
    off once the cache file is open leaves the file behind, and the next call
    returns its path. *)
Remark interrupted_download_stays_in_cache :
  let first := download_ocio_config Demo.env_interrupted_download Demo.url_a
                 default_hint Demo.world in
  fst first = None /\
  files (snd first) !! "ocio_cache/ocio_c011d968_config.ocio" = Some 0 /\
  fst (download_ocio_config Demo.env_interrupted_download Demo.url_a
         default_hint (snd first))
  = Some "ocio_cache/ocio_c011d968_config.ocio".
Proof. vm_compute. repeat split; reflexivity. Qed.

(** C4 (amended): the cache filename is [ocio_<hash>_<hint>] with [<hash>]
    the first eight hexadecimal digits of the MD5 of the URL, so it is a
    function of the URL and the filename hint together: two requests share a
    cache filename exactly when their eight-digit hashes and their hints are
    equal, and every fetch of a given URL with a given hint that yields a
    path yields the same cache path. *)
Theorem C4_cache_file_by_hash_and_hint :
  (forall url1 hint1 url2 hint2 : string,
      cache_filename url1 hint1 = cache_filename url2 hint2 <->
      url_hash url1 = url_hash url2 /\ hint1 = hint2) /\
  (forall (T : Type) (env : Env T) (url hint : string) (w : World T),
      fst (download_ocio_config env url hint w) = None \/
      fst (download_ocio_config env url hint w)
      = Some (Py.path_join (ocio_cache_dir env)
                ("ocio_" +:+ url_hash url +:+ "_" +:+ hint))).
Proof.
  split; [exact cache_filename_inj|].
  intros T env url hint w.
  destruct (download_ocio_config env url hint w) as [[p|] w1] eqn:E;
    [right | left; reflexivity].
  apply download_some in E as [-> _]. reflexivity.
Qed.

(** C4, as stated, fails. Two distinct URLs have the same eight-digit hash,
    hence the same cache file: once the first is fetched, the second resolves
    to the first one's file without any request. And one URL, the preset
    "ACES 1.3 CG Config", resolves to two different cache files: one through
    the source "Preset" and another through "Auto". *)
Lemma C4_urls_collide_and_one_url_has_two_files :
  Demo.url_a <> Demo.url_b /\
  cache_filename Demo.url_a default_hint
  = cache_filename Demo.url_b default_hint /\
  (let w1 := snd (download_ocio_config Demo.env Demo.url_a default_hint
                    Demo.world) in
   requests w1 = [Demo.url_a] /\
   download_ocio_config Demo.env Demo.url_b default_hint w1
   = (Some "ocio_cache/ocio_c011d968_config.ocio", w1)) /\
  fst (find_or_download_ocio_config Demo.env "Preset" "" ""
         "ACES 1.3 CG Config" Demo.world)
  = Some "ocio_cache/ocio_8fc0c499_aces_1.3_cg_config.ocio" /\
  fst (find_or_download_ocio_config Demo.env "Auto" "" "" "" Demo.world)
  = Some "ocio_cache/ocio_8fc0c499_aces13_cg.ocio".
Proof.
  split; [discriminate|].
  split; [vm_compute; reflexivity|].
  split; [split; vm_compute; reflexivity|].
  split; vm_compute; reflexivity.
Qed.

(** C5: when a fetch of a URL returned a path, fetching the same URL with the
    same hint again returns the same path and leaves the world as it is, the
    log of network requests included; a file found under the cache name is
    returned whatever its size, without validation. *)
Theorem C5_second_fetch_is_cache_hit {T : Type} (env : Env T)
    (url hint : string) (w w1 : World T) (p : string) :
  download_ocio_config env url hint w = (Some p, w1) ->
  download_ocio_config env url hint w1 = (Some p, w1) /\
  requests (snd (download_ocio_config env url hint w1)) = requests w1 /\
  (forall (w2 : World T) (n : nat),
      files w2 !! p = Some n ->
      download_ocio_config env url hint w2 = (Some p, w2)).
Proof.
  intros Hfirst. apply download_some in Hfirst as [-> [n Hn]].
  assert (Hhit := download_cache_hit env url hint w1 n Hn).
  split; [exact Hhit|]. split; [by rewrite Hhit|].
  intros w2 m Hm. exact (download_cache_hit env url hint w2 m Hm).
Qed.

Lemma C5_second_fetch_is_cache_hit_witness :
  let w1 := snd (download_ocio_config Demo.env Demo.url_a default_hint
                   Demo.world) in
  download_ocio_config Demo.env Demo.url_a default_hint Demo.world
  = (Some "ocio_cache/ocio_c011d968_config.ocio", w1) /\
  download_ocio_config Demo.env Demo.url_a default_hint w1
  = (Some "ocio_cache/ocio_c011d968_config.ocio", w1).
Proof.
  assert (H1 : download_ocio_config Demo.env Demo.url_a default_hint
                 Demo.world
               = (Some "ocio_cache/ocio_c011d968_config.ocio",
                  snd (download_ocio_config Demo.env Demo.url_a default_hint
                         Demo.world)))
    by (vm_compute; reflexivity).
  split; [exact H1|].
  exact (proj1 (C5_second_fetch_is_cache_hit Demo.env Demo.url_a default_hint
                  Demo.world _ _ H1)).
Defined.

(** C8: when no file is cached for the URL and the download completes with
    fewer than 1000 bytes, the fetch returns no path and the undersized file
    is gone from the cache directory; one request was made. *)
Theorem C8_undersized_download_is_removed {T : Type} (env : Env T)
    (url hint : string) (w : World T) (n : nat) :
  exists_path w (cache_path_of env url hint) = false ->
  urlopen env w url = Body n ->
  n < 1000 ->
  fst (download_ocio_config env url hint w) = None /\
  files (snd (download_ocio_config env url hint w))
    !! cache_path_of env url hint = None /\
  requests (snd (download_ocio_config env url hint w))
  = requests w ++ [url].
Proof.
  intros Hmiss Hbody Hsmall. unfold download_ocio_config.
  rewrite Hmiss, Hbody.
  destruct (Nat.ltb_spec n 1000) as [_|Hge]; [|lia].
  simpl. split; [reflexivity|]. split; [|reflexivity].
  apply lookup_delete_eq.
Qed.

Lemma C8_undersized_download_is_removed_witness :
  fst (download_ocio_config Demo.env_small_download Demo.url_a default_hint
         Demo.world) = None /\
  files (snd (download_ocio_config Demo.env_small_download Demo.url_a
                default_hint Demo.world))
    !! cache_path_of Demo.env_small_download Demo.url_a default_hint = None /\
  requests (snd (download_ocio_config Demo.env_small_download Demo.url_a
                   default_hint Demo.world))
  = requests Demo.world ++ [Demo.url_a].
Proof.
  apply (C8_undersized_download_is_removed Demo.env_small_download
           Demo.url_a default_hint Demo.world 512).
  - vm_compute. reflexivity.
  - reflexivity.
  - lia.
Defined.

(** ** Lists *)

Lemma lookup_map {A B} (f : A -> B) (l : list A) (i : nat) :
  map f l !! i = f <$> l !! i.
Proof.
  revert i. induction l as [|x l IH]; intros [|i]; simpl; auto.
Qed.

Lemma elem_of_map {A B} (f : A -> B) (l : list A) (y : B) :
  y ∈ map f l -> exists x, x ∈ l /\ y = f x.
Proof.
  intros [i Hi]%list_elem_of_lookup. rewrite lookup_map in Hi.
  destruct (l !! i) as [x|] eqn:E; [|discriminate].
  injection Hi as <-. exists x. split; [|reflexivity].
  apply list_elem_of_lookup. by exists i.
Qed.

(** ** ColorSpaceConverter *)

Section ConverterFacts.
Context {T : Type} `{Sample T}.

Lemma convert_same (buffer : ndarray T) (cs : string) :
  convert_colorspace buffer cs cs = Returns (buffer, "Без конвертации").
Proof. unfold convert_colorspace. by rewrite decide_True. Qed.

Lemma convert_srgb_aces2065 (buffer : ndarray T) :
  convert_colorspace buffer "sRGB" "ACES2065-1"
  = (try! result <- matrix_transform (srgb_to_linear buffer)
                      SRGB_TO_ACES2065_MATRIX;
     Returns (result, "Matrix: sRGB -> Linear -> ACES2065-1")).
Proof. reflexivity. Qed.

Lemma convert_aces2065_acescg (buffer : ndarray T) :
  convert_colorspace buffer "ACES2065-1" "ACEScg"
  = (try! result <- matrix_transform buffer ACES2065_TO_ACESCG_MATRIX;
     Returns (result, "Matrix: ACES2065-1 -> ACEScg")).
Proof. reflexivity. Qed.

Lemma convert_srgb_acescg (buffer : ndarray T) :
  convert_colorspace buffer "sRGB" "ACEScg"
  = (try! aces2065 <- matrix_transform (srgb_to_linear buffer)
                        SRGB_TO_ACES2065_MATRIX;
     try! result <- matrix_transform aces2065 ACES2065_TO_ACESCG_MATRIX;
     Returns (result, "Matrix: sRGB -> Linear -> ACES2065-1 -> ACEScg")).
Proof. reflexivity. Qed.

Lemma shape_srgb_to_linear (image : ndarray T) :
  shape (srgb_to_linear image) = shape image.
Proof. reflexivity. Qed.

Lemma shape_matrix_transform (image result : ndarray T)
    (matrix : list (list T)) :
  matrix_transform image matrix = Returns result ->
  shape result = shape image.
Proof.
  unfold matrix_transform.
  destruct (size image mod 3 =? 0)%nat; [|discriminate].
  by intros [= <-].
Qed.

Lemma matrix_transform_returns (image : ndarray T)
    (matrix : list (list T)) :
  size image mod 3 = 0 ->
  exists result, matrix_transform image matrix = Returns result.
Proof.
  intros Hsize. unfold matrix_transform. rewrite Hsize. simpl. by eexists.
Qed.

End ConverterFacts.

(** C2: converting sRGB to ACEScg is the linearization followed by the
    sRGB-to-ACES2065-1 matrix and then the ACES2065-1-to-ACEScg matrix; its
    buffer is the one obtained by converting sRGB to ACES2065-1 and the
    result from ACES2065-1 to ACEScg (an error of either stage included). *)
Theorem C2_srgb_to_acescg_is_two_stage {T : Type} `{Sample T}
    (buffer : ndarray T) :
  convert_colorspace buffer "sRGB" "ACEScg"
  = (try! aces2065 <- matrix_transform (srgb_to_linear buffer)
                        SRGB_TO_ACES2065_MATRIX;
     try! result <- matrix_transform aces2065 ACES2065_TO_ACESCG_MATRIX;
     Returns (result, "Matrix: sRGB -> Linear -> ACES2065-1 -> ACEScg")) /\
  converted_buffer (convert_colorspace buffer "sRGB" "ACEScg")
  = (try! aces2065 <-
       converted_buffer (convert_colorspace buffer "sRGB" "ACES2065-1");
     converted_buffer (convert_colorspace aces2065 "ACES2065-1" "ACEScg")).
Proof.
  split; [reflexivity|].
  rewrite convert_srgb_acescg, convert_srgb_aces2065.
  destruct (matrix_transform (srgb_to_linear buffer) _) as [aces2065|e];
    simpl; [|reflexivity].
  rewrite convert_aces2065_acescg.
  destruct (matrix_transform aces2065 _) as [result|e]; reflexivity.
Qed.

(** C3: for a pair of colour spaces that are different and that is none of
    sRGB to ACES2065-1, ACES2065-1 to ACEScg, sRGB to ACEScg and Linear sRGB
    to ACES2065-1, the conversion raises nothing and returns the buffer as it
    is, with a description that names the source and the destination. *)
Theorem C3_unsupported_pair_passes_through {T : Type} `{Sample T}
    (buffer : ndarray T) (input_cs output_cs : string) :
  input_cs <> output_cs ->
  (input_cs, output_cs) ∉ [ ("sRGB", "ACES2065-1"); ("ACES2065-1", "ACEScg");
                            ("sRGB", "ACEScg"); ("Linear sRGB", "ACES2065-1") ] ->
  convert_colorspace buffer input_cs output_cs
  = Returns (buffer,
             "Без конвертации (" +:+ input_cs +:+ " -> " +:+ output_cs
               +:+ " недоступна)").
Proof.
  intros Hne Hnot. rewrite !not_elem_of_cons in Hnot.
  destruct Hnot as (H1 & H2 & H3 & H4 & _).
  unfold convert_colorspace.
  rewrite decide_False by assumption.
  rewrite decide_False by (intros [-> ->]; by apply H1).
  rewrite decide_False by (intros [-> ->]; by apply H2).
  rewrite decide_False by (intros [-> ->]; by apply H3).
  rewrite decide_False by (intros [-> ->]; by apply H4).
  reflexivity.
Qed.

Lemma C3_unsupported_pair_passes_through_witness :
  convert_colorspace Demo.green_pixel "Rec.709" "ACEScg"
  = Returns (Demo.green_pixel,
             "Без конвертации (Rec.709 -> ACEScg недоступна)").
Proof.
  apply (C3_unsupported_pair_passes_through Demo.green_pixel
           "Rec.709" "ACEScg").
  - discriminate.
  - rewrite !not_elem_of_cons. repeat split; try discriminate.
    apply not_elem_of_nil.
Defined.

(** C7: the linearization keeps the shape and acts sample by sample: a
    sample [v] with [v <= 0.04045] becomes [v / 12.92] and every other sample
    becomes [((v + 0.055) / 1.055) ^ 2.4]; nothing else changes. *)
Theorem C7_srgb_to_linear_elementwise {T : Type} `{Sample T}
    (image : ndarray T) (i : nat) (v : T) :
  data image !! i = Some v ->
  shape (srgb_to_linear image) = shape image /\
  length (data (srgb_to_linear image)) = length (data image) /\
  (fle v (flit 0.04045) = true ->
   data (srgb_to_linear image) !! i = Some (fdiv v (flit 12.92))) /\
  (fle v (flit 0.04045) = false ->
   data (srgb_to_linear image) !! i
   = Some (fpow (fdiv (fadd v (flit 0.055)) (flit 1.055)) (flit 2.4))).
Proof.
  intros Hv. split; [reflexivity|]. split; [apply length_map|].
  unfold srgb_to_linear. simpl. rewrite lookup_map, Hv. simpl.
  unfold srgb_to_linear_sample.
  split; intros Hle;
    change (flit Matrices.srgb_threshold) with (flit 0.04045);
    rewrite Hle; reflexivity.
Qed.

Lemma C7_srgb_to_linear_elementwise_witness :
  data (srgb_to_linear Demo.raw_frame) !! 1%nat
  = Some (fdiv (0.02%Q) (flit 12.92)) /\
  data (srgb_to_linear Demo.raw_frame) !! 2%nat
  = Some (fpow (fdiv (fadd (1.5%Q) (flit 0.055)) (flit 1.055)) (flit 2.4)).
Proof.
  split.
  - apply (C7_srgb_to_linear_elementwise Demo.raw_frame 1 (0.02%Q));
      reflexivity.
  - apply (C7_srgb_to_linear_elementwise Demo.raw_frame 2 (1.5%Q));
      reflexivity.
Defined.

(** ** Clamping *)

Lemma data_squeeze0 {T : Type} (tensor : ndarray T) :
  data (squeeze0 tensor) = data tensor.
Proof.
  unfold squeeze0. destruct (shape tensor) as [|[|[|n]] rest]; reflexivity.
Qed.

Lemma data_tensor_to_numpy {T : Type} `{Sample T} (tensor : ndarray T) :
  data (tensor_to_numpy tensor)
  = map (fun v => fmax v (flit 0)) (data tensor).
Proof.
  unfold tensor_to_numpy, clip_below. simpl.
  destruct (length (shape tensor) =? 4)%nat; [|reflexivity].
  by rewrite data_squeeze0.
Qed.

(** Without a squeeze the shape stays: that is every array the save operation
    hands to [tensor_to_numpy]. *)
Lemma shape_tensor_to_numpy {T : Type} `{Sample T} (tensor : ndarray T) :
  length (shape tensor) <> 4 ->
  shape (tensor_to_numpy tensor) = shape tensor.
Proof.
  intros Hlen. unfold tensor_to_numpy.
  destruct (Nat.eqb_spec (length (shape tensor)) 4); [done | reflexivity].
Qed.

Section Clamp.
Context {T : Type} `{SampleOrder T}.

Lemma fle_refl (a : T) : fle a a = true.
Proof. by destruct (fle_total a a). Qed.

Lemma fmax_nonneg (v : T) : fle (flit 0) (fmax v (flit 0)) = true.
Proof.
  rewrite fmax_fle. destruct (fle (flit 0) v) eqn:E; [exact E|].
  apply fle_refl.
Qed.

Lemma fmax_negative (v : T) :
  flt v (flit 0) = true -> fmax v (flit 0) = flit 0.
Proof.
  rewrite flt_fle, fmax_fle. by destruct (fle (flit 0) v).
Qed.

Lemma fmax_above_one (v : T) :
  flt (flit 1) v = true -> fmax v (flit 0) = v.
Proof.
  rewrite flt_fle, fmax_fle. intros Hv.
  destruct (fle v (flit 1)) eqn:E1; [discriminate|].
  destruct (fle_total v (flit 1)) as [E|E]; [congruence|].
  assert (H01 : fle (flit 0) (flit 1) = true) by (by rewrite fle_flit).
  by rewrite (fle_trans _ _ _ H01 E).
Qed.

End Clamp.

(** C9 (amended): in an arithmetic without NaN, [tensor_to_numpy] replaces
    every sample by the maximum of the sample and 0.0: a negative sample
    becomes exactly zero, a sample above 1.0 stays as it is, and every sample
    of the array it returns, which is the array handed to
    [convert_colorspace], is non-negative. Nothing is said of the array that
    [convert_colorspace] returns and the EXR writer receives. *)
Theorem C9_tensor_to_numpy_clamps_below {T : Type} `{SampleOrder T}
    (tensor : ndarray T) (i : nat) (v : T) :
  data tensor !! i = Some v ->
  data (tensor_to_numpy tensor) !! i = Some (fmax v (flit 0)) /\
  (flt v (flit 0) = true ->
   data (tensor_to_numpy tensor) !! i = Some (flit 0)) /\
  (flt (flit 1) v = true -> data (tensor_to_numpy tensor) !! i = Some v) /\
  (forall v' : T,
      v' ∈ data (tensor_to_numpy tensor) -> fle (flit 0) v' = true).
Proof.
  intros Hv. rewrite data_tensor_to_numpy, lookup_map, Hv. simpl.
  split; [reflexivity|].
  split; [by intros ->%fmax_negative|].
  split; [by intros ->%fmax_above_one|].
  intros v' (x & _ & ->)%elem_of_map. apply fmax_nonneg.
Qed.

Lemma C9_tensor_to_numpy_clamps_below_witness :
  data (tensor_to_numpy Demo.raw_frame) !! 0%nat = Some (flit 0) /\
  data (tensor_to_numpy Demo.raw_frame) !! 2%nat = Some (1.5%Q).
Proof.
  split.
  - apply (C9_tensor_to_numpy_clamps_below Demo.raw_frame 0 ((-0.5)%Q));
      reflexivity.
  - apply (C9_tensor_to_numpy_clamps_below Demo.raw_frame 2 (1.5%Q));
      reflexivity.
Defined.

(** C9, as stated, fails at the EXR writer: the matrix from ACES2065-1 to
    ACEScg has negative coefficients. Saving one green ACES2065-1 pixel
    [(0, 1, 0)] as ACEScg hands [write_image] a red sample of
    [-0.236510746], although the clamped array is [(0, 1, 0)]. It fails for
    NaN as well: the clamp lets a NaN sample through, and NaN is not
    non-negative. *)
Lemma C9_negative_sample_reaches_exr_writer :
  let w := snd (save_aces_exr Demo.env Demo.green_pixel "render" "ACEScg"
                  "zip" "half" "ACES2065-1" "Auto" "" "" "" Demo.world) in
  (data (tensor_to_numpy Demo.green_pixel) = [0%Q; 1%Q; 0%Q] /\
   map (fun c => (fst (fst c), data (snd c))) (exr_writes w)
   = [ ("output/render.exr",
        [Qred (-0.236510746); Qred 1.176229700; Qred (-0.006032449)]) ] /\
   fle (flit 0) (Qred (-0.236510746)) = false /\
   flt (Qred (-0.236510746)) (flit 0) = true) /\
  (data (tensor_to_numpy Demo.nan_frame) = [None; Some 0.5%Q; Some 2%Q] /\
   fle (flit 0) (None : option Q) = false).
Proof. vm_compute. repeat split; reflexivity. Qed.

(** ** The single-image path *)

Lemma single_filename_not_indexed (filename_prefix : string) :
  single_filename filename_prefix <> batch_filename filename_prefix 0.
Proof.
  unfold single_filename, batch_filename. intros Heq.
  apply append_inj_length in Heq as [_ Heq]; [|reflexivity].
  discriminate Heq.
Qed.

(** C10: a 4-dimensional input whose first dimension is 1 is not a batch: it
    goes through the single-image path on [images[0]], the file is
    [<prefix>.exr], which is not [<prefix>_00000.exr], and the one report
    entry carries no frame counter. *)
Theorem C10_batch_of_one_is_single_image {T : Type} `{Sample T}
    (env : Env T) (images : ndarray T)
    (filename_prefix colorspace compression pixel_type input_colorspace
       source path url preset : string)
    (w : World T) (h wd c : nat) (converted : ndarray T) (conv_info : string) :
  OIIO_AVAILABLE env = true ->
  shape images = [1; h; wd; c] ->
  convert_colorspace
    (tensor_to_numpy
       (NDArray [h; wd; c] (take (size_of [h; wd; c]) (data images))))
    input_colorspace colorspace = Returns (converted, conv_info) ->
  let w1 := snd (find_or_download_ocio_config env source path url preset w) in
  let filepath := Py.path_join (output_dir env) (filename_prefix +:+ ".exr") in
  let written :=
    save_exr_aces env converted filepath colorspace compression pixel_type
      w1 in
  is_batch images = false /\
  save_aces_exr env images filename_prefix colorspace compression pixel_type
    input_colorspace source path url preset w
  = (Returns (if fst (fst written) then filepath else "",
              if fst (fst written)
              then conv_info +:+ " -> " +:+ snd (fst written)
              else "ОШИБКА - " +:+ snd (fst written)),
     snd written) /\
  filename_prefix +:+ ".exr" <> batch_filename filename_prefix 0.
Proof.
  intros Hoiio Hshape Hconv w1 filepath written.
  split; [unfold is_batch; by rewrite Hshape|].
  split; [|apply single_filename_not_indexed].
  unfold save_aces_exr. rewrite Hoiio. simpl.
  destruct (find_or_download_ocio_config env source path url preset w)
    as [resolved w1'] eqn:Hres.
  subst w1. simpl in *.
  unfold save_frames, is_batch, single_image, getitem. rewrite Hshape. simpl.
  rewrite drop_0, Hconv. fold filepath. unfold single_filename.
  subst written. fold filepath.
  destruct (save_exr_aces env converted filepath colorspace compression
              pixel_type w1') as [[success format_info] w2].
  simpl. destruct success; reflexivity.
Qed.

Lemma C10_batch_of_one_is_single_image_witness :
  fst (save_aces_exr Demo.env Demo.batch_of_one "render" "ACES2065-1" "zip"
         "half" "Linear sRGB" "Auto" "" "" "" Demo.world)
  = Returns ("output/render.exr",
             "Matrix: Linear sRGB -> ACES2065-1 -> EXR ACES2065-1 (half, zip, range: [0.442, 1.778])").
Proof.
  assert (Hc : exists r, convert_colorspace
            (tensor_to_numpy
               (NDArray [1; 1; 3]
                  (take (size_of [1; 1; 3]) (data Demo.batch_of_one))))
            "Linear sRGB" "ACES2065-1" = Returns r)
    by (vm_compute; eexists; reflexivity).
  destruct Hc as [[converted conv_info] Hc].
  destruct (C10_batch_of_one_is_single_image Demo.env Demo.batch_of_one
              "render" "ACES2065-1" "zip" "half" "Linear sRGB" "Auto" "" ""
              "" Demo.world 1 1 3 converted conv_info eq_refl eq_refl Hc)
    as (_ & Hsave & _).
  rewrite Hsave. vm_compute in Hc. injection Hc as <- <-.
  vm_compute. reflexivity.
Defined.

(** ** The batch loop *)

Section BatchLoop.
Context {T : Type} `{Sample T}.
Variable env : Env T.
Variable images : ndarray T.
Variables filename_prefix colorspace compression pixel_type : string.
Variable input_colorspace : string.
Variable total_frames : nat.

Local Abbreviation frame :=
  (batch_frame env images filename_prefix colorspace compression pixel_type
     input_colorspace total_frames).
Local Abbreviation loop :=
  (batch_loop env images filename_prefix colorspace compression pixel_type
     input_colorspace total_frames).
Local Abbreviation conversion :=
  (frame_conversion images colorspace input_colorspace).
Local Abbreviation filepath := (batch_filepath env filename_prefix).
Local Abbreviation written :=
  (frame_write env images filename_prefix colorspace compression pixel_type
     input_colorspace total_frames).
Local Abbreviation ok :=
  (frame_ok env images filename_prefix colorspace compression pixel_type
     input_colorspace total_frames).
Local Abbreviation entry :=
  (frame_entry env images filename_prefix colorspace compression pixel_type
     input_colorspace total_frames).
Local Abbreviation before :=
  (world_before_frame env images filename_prefix colorspace compression
     pixel_type input_colorspace total_frames).

(** One iteration, in terms of the conversion of the frame and of the
    answer of the writer. *)
Lemma batch_frame_eq (i : nat) (saved infos : list string) (w : World T) :
  frame i (saved, infos) w
  = match conversion i with
    | Raises e => (Raises e, w)
    | Returns (converted_array, conv_info) =>
        let r := save_exr_aces env converted_array (filepath i) colorspace
                   compression pixel_type w in
        (Returns
           (if fst (fst r) then saved ++ [filepath i] else saved,
            infos ++
              [if fst (fst r)
               then frame_label i total_frames +:+ ": " +:+ conv_info
                      +:+ " -> " +:+ snd (fst r)
               else frame_label i total_frames +:+ ": ОШИБКА - "
                      +:+ snd (fst r)]),
         snd r)
    end.
Proof.
  unfold batch_frame, frame_conversion, batch_filepath.
  destruct (getitem images i) as [image_tensor|e]; simpl; [|reflexivity].
  destruct (convert_colorspace _ _ _) as [[converted_array conv_info]|e];
    [|reflexivity].
  destruct (save_exr_aces _ _ _ _ _ _ _) as [[success format_info] w'].
  simpl. destruct success; reflexivity.
Qed.

Lemma batch_loop_app (l1 l2 : list nat) (acc : report) (w : World T) :
  loop (l1 ++ l2) acc w
  = match loop l1 acc w with
    | (Returns acc', w') => loop l2 acc' w'
    | (Raises e, w') => (Raises e, w')
    end.
Proof.
  revert acc w. induction l1 as [|i l1 IH]; intros acc w; simpl;
    [reflexivity|].
  destruct (frame i acc w) as [[acc'|e] w']; [apply IH | reflexivity].
Qed.

(** The loop over the first [k] frames, none of which raises. *)
Lemma batch_loop_seq (k : nat) (w : World T) :
  (forall i, i < k -> exists r, conversion i = Returns r) ->
  loop (seq 0 k) ([], []) w
  = (Returns (map filepath (List.filter (ok w) (seq 0 k)),
              map (entry w) (seq 0 k)),
     before k w).
Proof.
  induction k as [|k IH]; intros Hconv; [reflexivity|].
  assert (Hk : loop (seq 0 k) ([], []) w
               = (Returns (map filepath (List.filter (ok w) (seq 0 k)),
                           map (entry w) (seq 0 k)),
                  before k w))
    by (apply IH; intros i Hi; apply Hconv; lia).
  unfold world_before_frame at 1.
  rewrite seq_S, batch_loop_app, Hk. cbn [batch_loop].
  rewrite batch_frame_eq.
  rewrite List.filter_app, !map_app. simpl.
  destruct (Hconv k (Nat.lt_succ_diag_r k)) as [[converted conv_info] Hr].
  rewrite Hr.
  destruct (save_exr_aces env converted (filepath k) colorspace compression
              pixel_type (before k w)) as [[success format_info] w']
    eqn:Hsave.
  assert (Hw : written k w = Returns (conv_info, (success, format_info)))
    by (unfold frame_write; rewrite Hr; simpl; by rewrite Hsave).
  assert (Hok : ok w k = success) by (unfold frame_ok; by rewrite Hw).
  assert (Hentry : entry w k
                   = if success
                     then frame_label k total_frames +:+ ": "
                            +:+ conv_info +:+ " -> " +:+ format_info
                     else frame_label k total_frames +:+ ": ОШИБКА - "
                            +:+ format_info)
    by (unfold frame_entry; rewrite Hw; by destruct success).
  rewrite Hok, Hentry. simpl.
  destruct success; simpl; rewrite ?app_nil_r; reflexivity.
Qed.

End BatchLoop.

Lemma filter_all_false {A} (p : A -> bool) (l : list A) :
  (forall x, In x l -> p x = false) -> List.filter p l = [].
Proof.
  induction l as [|x l IH]; intros Hall; simpl; [reflexivity|].
  rewrite (Hall x (or_introl eq_refl)). apply IH.
  intros y Hy. apply Hall. by right.
Qed.

(** The first index below [n] that satisfies [p] heads the filtered
    indices. *)
Lemma hd_filter_seq {A} (p : nat -> bool) (f : nat -> A) (d : A) (n k : nat) :
  k < n -> p k = true -> (forall j, j < k -> p j = false) ->
  hd d (map f (List.filter p (seq 0 n))) = f k.
Proof.
  intros Hk Hp Hbefore.
  replace n with (k + S (n - S k)) by lia.
  rewrite seq_app, List.filter_app. simpl. rewrite Hp.
  rewrite filter_all_false; [reflexivity|].
  intros j [_ Hj]%in_seq. apply Hbefore. lia.
Qed.

(** C6: in a batch of [N > 1] frames none of whose conversions raises, the
    save operation returns; its report joins exactly [N] entries, the entry of
    a frame whose write failed is [Frame k+1/N: ОШИБКА - <message>] and that
    of a frame whose write succeeded is [Frame k+1/N: <conversion> ->
    <format>]; the returned path is that of the first frame whose write
    succeeded, and the empty string when every write failed. *)
Theorem C6_batch_report_one_entry_per_frame {T : Type} `{Sample T}
    (env : Env T) (images : ndarray T)
    (filename_prefix colorspace compression pixel_type input_colorspace
       source path url preset : string)
    (w : World T) (N : nat) :
  OIIO_AVAILABLE env = true ->
  length (shape images) = 4 ->
  hd 0 (shape images) = N ->
  1 < N ->
  (forall i, i < N ->
     exists r, frame_conversion images colorspace input_colorspace i
               = Returns r) ->
  let w1 := snd (find_or_download_ocio_config env source path url preset w) in
  let written :=
    frame_write env images filename_prefix colorspace compression pixel_type
      input_colorspace N in
  let ok :=
    frame_ok env images filename_prefix colorspace compression pixel_type
      input_colorspace N w1 in
  exists (infos : list string) (exr_path : string) (w2 : World T),
    save_aces_exr env images filename_prefix colorspace compression pixel_type
      input_colorspace source path url preset w
    = (Returns (exr_path, Py.join Py.newline infos), w2) /\
    length infos = N /\
    (forall k conv_info msg, k < N ->
       written k w1 = Returns (conv_info, (false, msg)) ->
       infos !! k = Some (frame_label k N +:+ ": ОШИБКА - " +:+ msg)) /\
    (forall k conv_info format_info, k < N ->
       written k w1 = Returns (conv_info, (true, format_info)) ->
       infos !! k = Some (frame_label k N +:+ ": " +:+ conv_info +:+ " -> "
                            +:+ format_info)) /\
    (forall k, k < N -> ok k = true -> (forall j, j < k -> ok j = false) ->
       exr_path = batch_filepath env filename_prefix k) /\
    ((forall k, k < N -> ok k = false) -> exr_path = "").
Proof.
  intros Hoiio Hlen HN Hbatch Hconv w1 written ok.
  exists (map (frame_entry env images filename_prefix colorspace compression
                 pixel_type input_colorspace N w1) (seq 0 N)).
  exists (hd "" (map (batch_filepath env filename_prefix)
                   (List.filter ok (seq 0 N)))).
  exists (world_before_frame env images filename_prefix colorspace compression
            pixel_type input_colorspace N N w1).
  split.
  { unfold save_aces_exr. rewrite Hoiio. simpl.
    destruct (find_or_download_ocio_config env source path url preset w)
      as [resolved w1'] eqn:Hres.
    subst w1 ok. simpl.
    unfold save_frames, is_batch. rewrite Hlen, HN.
    destruct (Nat.ltb_spec 1 N) as [_|]; [|lia]. simpl.
    by rewrite (batch_loop_seq env images filename_prefix colorspace
                  compression pixel_type input_colorspace N N w1' Hconv). }
  split; [by rewrite length_map, length_seq|].
  split; [|split; [|split]].
  - intros k conv_info msg Hk Hw. rewrite lookup_map.
    rewrite (lookup_seq_lt 0 N k Hk). simpl.
    unfold frame_entry. fold written. by rewrite Hw.
  - intros k conv_info format_info Hk Hw. rewrite lookup_map.
    rewrite (lookup_seq_lt 0 N k Hk). simpl.
    unfold frame_entry. fold written. by rewrite Hw.
  - intros k Hk Hok Hbefore. by apply hd_filter_seq.
  - intros Hall. rewrite filter_all_false; [reflexivity|].
    intros k [_ Hk]%in_seq. apply Hall. lia.
Qed.

Lemma C6_batch_report_one_entry_per_frame_witness :
  exists (infos : list string) (exr_path : string) (w2 : World Q),
    save_aces_exr Demo.env_second_frame_fails Demo.batch_of_three "render"
      "ACEScg" "zip" "half" "sRGB" "Auto" "" "" "" Demo.world
    = (Returns (exr_path, Py.join Py.newline infos), w2) /\
    length infos = 3 /\
    infos !! 1%nat
    = Some "Frame 2/3: ОШИБКА - Ошибка EXR: Невозможно открыть output/render_00001.exr для записи EXR" /\
    exr_path = "output/render_00000.exr".
Proof.
  destruct (C6_batch_report_one_entry_per_frame Demo.env_second_frame_fails
              Demo.batch_of_three "render" "ACEScg" "zip" "half" "sRGB"
              "Auto" "" "" "" Demo.world 3)
    as (infos & exr_path & w2 & Hsave & Hlen & Herr & _ & Hfirst & _).
  - reflexivity.
  - reflexivity.
  - reflexivity.
  - lia.
  - intros i Hi. destruct i as [|[|[|i]]]; [| | |lia];
      vm_compute; eexists; reflexivity.
  - exists infos, exr_path, w2.
    split; [exact Hsave|]. split; [exact Hlen|]. split.
    + apply (Herr 1 "Matrix: sRGB -> Linear -> ACES2065-1 -> ACEScg"
               "Ошибка EXR: Невозможно открыть output/render_00001.exr для записи EXR");
        [lia | vm_compute; reflexivity].
    + apply (Hfirst 0); [lia | vm_compute; reflexivity | intros j Hj; lia].
Defined.

(** ** What can raise *)

Section Raising.
Context {T : Type} `{Sample T}.

(** A conversion raises only in a reshape, that is on a matrix pair with a
    number of samples that is not a multiple of three. *)
Lemma convert_returns (image : ndarray T) (input_cs output_cs : string) :
  size image mod 3 = 0 \/ input_cs = output_cs
    \/ (input_cs, output_cs) ∉ matrix_pairs ->
  exists r, convert_colorspace image input_cs output_cs = Returns r.
Proof.
  intros Hfit.
  destruct (decide (input_cs = output_cs)) as [->|Hne];
    [rewrite convert_same; by eexists|].
  destruct (decide ((input_cs, output_cs) ∈ matrix_pairs)) as [Hin|Hout].
  - assert (Hsize : size image mod 3 = 0)
      by (destruct Hfit as [?|[?|?]]; done).
    assert (Hlin : size (srgb_to_linear image) mod 3 = 0) by exact Hsize.
    unfold matrix_pairs in Hin. rewrite !elem_of_cons in Hin.
    destruct Hin as [[= -> ->]|[[= -> ->]|[[= -> ->]|[[= -> ->]|Hin]]]].
    + rewrite convert_srgb_aces2065.
      destruct (matrix_transform_returns _ SRGB_TO_ACES2065_MATRIX Hlin)
        as [r ->]. by eexists.
    + rewrite convert_aces2065_acescg.
      destruct (matrix_transform_returns _ ACES2065_TO_ACESCG_MATRIX Hsize)
        as [r ->]. by eexists.
    + rewrite convert_srgb_acescg.
      destruct (matrix_transform_returns _ SRGB_TO_ACES2065_MATRIX Hlin)
        as [r Hr]. rewrite Hr. simpl.
      assert (Hr3 : size r mod 3 = 0).
      { unfold size. by rewrite (shape_matrix_transform _ _ _ Hr). }
      destruct (matrix_transform_returns _ ACES2065_TO_ACESCG_MATRIX Hr3)
        as [r' ->]. by eexists.
    + change (convert_colorspace image "Linear sRGB" "ACES2065-1")
        with (try! result <- matrix_transform image SRGB_TO_ACES2065_MATRIX;
              Returns (result, "Matrix: Linear sRGB -> ACES2065-1")).
      destruct (matrix_transform_returns _ SRGB_TO_ACES2065_MATRIX Hsize)
        as [r ->]. by eexists.
    + by apply elem_of_nil in Hin.
  - unfold matrix_pairs in Hout. rewrite !not_elem_of_cons in Hout.
    destruct Hout as (H1 & H2 & H3 & H4 & _).
    unfold convert_colorspace.
    rewrite decide_False by assumption.
    rewrite decide_False by (intros [-> ->]; by apply H1).
    rewrite decide_False by (intros [-> ->]; by apply H2).
    rewrite decide_False by (intros [-> ->]; by apply H3).
    rewrite decide_False by (intros [-> ->]; by apply H4).
    by eexists.
Qed.

Variable images : ndarray T.
Variables input_colorspace colorspace : string.

Hypothesis fits :
  frame_size (shape images) mod 3 = 0 \/ input_colorspace = colorspace
    \/ (input_colorspace, colorspace) ∉ matrix_pairs.

Lemma frame_conversion_returns (i : nat) :
  length (shape images) = 4 -> i < hd 0 (shape images) ->
  exists r, frame_conversion images colorspace input_colorspace i
            = Returns r.
Proof.
  intros Hlen Hi. unfold frame_conversion, getitem.
  unfold frame_size in fits. rewrite Hlen in fits. simpl in fits.
  destruct (shape images) as [|n rest] eqn:Hshape; [discriminate|].
  simpl in *. destruct (Nat.ltb_spec i n) as [_|]; [|lia]. simpl.
  apply convert_returns.
  destruct fits as [Hsize|Hrest]; [left | by right].
  unfold size. rewrite shape_tensor_to_numpy; simpl; [exact Hsize | lia].
Qed.

Lemma whole_conversion_returns :
  length (shape images) <> 4 ->
  exists r, convert_colorspace (tensor_to_numpy images) input_colorspace
              colorspace = Returns r.
Proof.
  intros Hlen. apply convert_returns.
  unfold frame_size in fits.
  destruct (Nat.eqb_spec (length (shape images)) 4) as [|_]; [done|].
  destruct fits as [Hsize|Hrest]; [left | by right].
  unfold size. by rewrite shape_tensor_to_numpy.
Qed.

End Raising.

Lemma single_image_returns {T : Type} `{Sample T} (env : Env T)
    (images : ndarray T)
    (filename_prefix colorspace compression pixel_type input_colorspace
       : string) (w : World T) :
  (length (shape images) = 4 -> 0 < hd 0 (shape images)) ->
  frame_size (shape images) mod 3 = 0 \/ input_colorspace = colorspace
    \/ (input_colorspace, colorspace) ∉ matrix_pairs ->
  exists acc w',
    single_image env images filename_prefix colorspace compression pixel_type
      input_colorspace ([], []) w = (Returns acc, w').
Proof.
  intros Hnonempty Hfits. unfold single_image.
  assert (Hconv : exists r,
             (try! image_tensor <-
                (if (length (shape images) =? 4)%nat then getitem images 0
                 else Returns images);
              convert_colorspace (tensor_to_numpy image_tensor)
                input_colorspace colorspace) = Returns r).
  { destruct (Nat.eqb_spec (length (shape images)) 4) as [Hlen|Hlen].
    - exact (frame_conversion_returns images input_colorspace colorspace
               Hfits 0 Hlen (Hnonempty Hlen)).
    - simpl. by apply whole_conversion_returns. }
  destruct Hconv as [[converted conv_info] Hconv].
  destruct (if (length (shape images) =? 4)%nat then getitem images 0
            else Returns images) as [image_tensor|e]; [|discriminate].
  simpl in Hconv. rewrite Hconv.
  destruct (save_exr_aces _ _ _ _ _ _ _) as [[success format_info] w'].
  destruct success; by eexists _, _.
Qed.

(** C1 (amended): the save operation returns a path and a report, and raises
    nothing, whenever OpenImageIO is missing, or the image tensor is not an
    empty batch and either each frame holds a multiple of three samples (as
    every frame of shape H x W x 3 does) or the pair of colour spaces needs
    no matrix; this for every colour space, every configuration source and
    every behaviour of the network and of the EXR library, even when no file
    is written. *)
Theorem C1_save_returns_on_three_channel_frames {T : Type} `{Sample T}
    (env : Env T) (images : ndarray T)
    (filename_prefix colorspace compression pixel_type input_colorspace
       source path url preset : string) (w : World T) :
  OIIO_AVAILABLE env = false \/
  ((length (shape images) = 4 -> 0 < hd 0 (shape images)) /\
   (frame_size (shape images) mod 3 = 0 \/ input_colorspace = colorspace
      \/ (input_colorspace, colorspace) ∉ matrix_pairs)) ->
  exists (exr_path conversion_info : string) (w' : World T),
    save_aces_exr env images filename_prefix colorspace compression pixel_type
      input_colorspace source path url preset w
    = (Returns (exr_path, conversion_info), w').
Proof.
  intros Hcases. unfold save_aces_exr.
  destruct (OIIO_AVAILABLE env) eqn:Hoiio; simpl; [|by eexists _, _, _].
  destruct Hcases as [|[Hnonempty Hfits]]; [discriminate|].
  destruct (find_or_download_ocio_config env source path url preset w)
    as [resolved w1].
  assert (Hframes : exists acc w2,
             save_frames env images filename_prefix colorspace compression
               pixel_type input_colorspace w1 = (Returns acc, w2)).
  { unfold save_frames. destruct (is_batch images) eqn:Hbatch.
    - apply andb_true_iff in Hbatch as [Hlen%Nat.eqb_eq _].
      rewrite batch_loop_seq; [by eexists _, _|].
      intros i Hi. by apply frame_conversion_returns.
    - by apply single_image_returns. }
  destruct Hframes as ([saved_files conversion_infos] & w2 & ->).
  by eexists _, _, _.
Qed.

Lemma C1_save_returns_on_three_channel_frames_witness :
  exists (exr_path conversion_info : string) (w' : World Q),
    save_aces_exr Demo.env_second_frame_fails Demo.batch_of_three "render"
      "ACEScg" "zip" "half" "sRGB" "URL" "" Demo.url_a "" Demo.world
    = (Returns (exr_path, conversion_info), w').
Proof.
  apply C1_save_returns_on_three_channel_frames.
  right. split; [intros _; vm_compute; lia | left; reflexivity].
Defined.

(** C1, as stated, fails: nothing catches what [images[0]] and the reshape of
    [matrix_transform] raise. One RGBA pixel converted from sRGB raises
    ValueError, and an empty batch raises IndexError, with OpenImageIO
    present and an EXR library that accepts every write. *)
Lemma C1_rgba_frame_and_empty_batch_raise :
  fst (save_aces_exr Demo.env Demo.rgba_pixel "render" "ACES2065-1" "zip"
         "half" "sRGB" "Auto" "" "" "" Demo.world)
  = Raises (ValueError "cannot reshape array of size 4 into shape (3)") /\
  fst (save_aces_exr Demo.env (NDArray [0; 2; 2; 3] ([] : list Q)) "render"
         "ACES2065-1" "zip" "half" "sRGB" "Auto" "" "" "" Demo.world)
  = Raises (IndexError "index 0 is out of bounds for dimension 0 with size 0").
Proof. split; vm_compute; reflexivity. Qed.

(** * Further properties of the code *)

(** ** ConfigResolver: what a fetch changes *)

Lemma download_requests {T : Type} (env : Env T) (url hint : string)
    (w : World T) :
  requests (snd (download_ocio_config env url hint w)) = requests w \/
  requests (snd (download_ocio_config env url hint w)) = requests w ++ [url].
Proof.
  unfold download_ocio_config. destruct (exists_path w _); [by left|].
  right. destruct (urlopen env w url) as [| | | |n]; try reflexivity.
  by destruct (n <? 1000)%nat.
Qed.

Lemma download_exr_writes {T : Type} (env : Env T) (url hint : string)
    (w : World T) :
  exr_writes (snd (download_ocio_config env url hint w)) = exr_writes w.
Proof.
  unfold download_ocio_config. destruct (exists_path w _); [reflexivity|].
  destruct (urlopen env w url) as [| | | |n]; try reflexivity.
  by destruct (n <? 1000)%nat.
Qed.

(** X1: a fetch touches one file only: every path other than the cache path
    of the URL and hint keeps its file (or its absence), and the log of EXR
    writes is not changed. *)
Theorem X1_download_touches_only_its_cache_file {T : Type} (env : Env T)
    (url hint : string) (w : World T) (p : string) :
  p <> cache_path_of env url hint ->
  files (snd (download_ocio_config env url hint w)) !! p = files w !! p /\
  exr_writes (snd (download_ocio_config env url hint w)) = exr_writes w.
Proof.
  intros Hp. split; [|apply download_exr_writes].
  unfold download_ocio_config. destruct (exists_path w _); [reflexivity|].
  destruct (urlopen env w url) as [| | |n ?|n]; simpl; try reflexivity.
  - by rewrite lookup_insert_ne.
  - destruct (n <? 1000)%nat; simpl.
    + rewrite lookup_delete_ne by done. by rewrite lookup_insert_ne.
    + by rewrite lookup_insert_ne.
Qed.

Lemma X1_download_touches_only_its_cache_file_witness :
  files (snd (download_ocio_config Demo.env Demo.url_a default_hint
                Demo.world)) !! "output/render.exr"
  = files Demo.world !! "output/render.exr".
Proof.
  apply (X1_download_touches_only_its_cache_file Demo.env Demo.url_a
           default_hint Demo.world "output/render.exr").
  vm_compute. discriminate.
Defined.

(** X2: the size threshold is exactly 1000 bytes. On a cache miss with a
    completed download of [n] bytes, a path is returned if and only if
    [n >= 1000]; the path is the cache path, and the file is then recorded
    with its [n] bytes. *)
Theorem X2_download_accepts_from_1000_bytes {T : Type} (env : Env T)
    (url hint : string) (w : World T) (n : nat) :
  exists_path w (cache_path_of env url hint) = false ->
  urlopen env w url = Body n ->
  (fst (download_ocio_config env url hint w)
   = Some (cache_path_of env url hint) <-> 1000 <= n) /\
  (fst (download_ocio_config env url hint w) = None <-> n < 1000) /\
  (1000 <= n ->
   files (snd (download_ocio_config env url hint w))
     !! cache_path_of env url hint = Some n).
Proof.
  intros Hmiss Hbody. unfold download_ocio_config. rewrite Hmiss, Hbody.
  destruct (Nat.ltb_spec n 1000) as [Hlt|Hge]; simpl.
  - split; [split; [discriminate | lia]|].
    split; [split; [done | done]|]. lia.
  - split; [split; [done | done]|].
    split; [split; [discriminate | lia]|].
    intros _. apply lookup_insert_eq.
Qed.

Lemma X2_download_accepts_from_1000_bytes_witness :
  fst (download_ocio_config Demo.env Demo.url_a default_hint Demo.world)
  = Some (cache_path_of Demo.env Demo.url_a default_hint) <-> 1000 <= 5000.
Proof.
  apply (X2_download_accepts_from_1000_bytes Demo.env Demo.url_a default_hint
           Demo.world 5000).
  - vm_compute. reflexivity.
  - reflexivity.
Defined.

(** X3: a fetch that fails before the cache file is opened (an HTTP error, a
    URL error or any other exception of [urlopen]) returns no path, leaves
    every file as it was and logs its one request. *)
Theorem X3_failed_fetch_leaves_files {T : Type} (env : Env T)
    (url hint : string) (w : World T) :
  exists_path w (cache_path_of env url hint) = false ->
  fails_before_open (urlopen env w url) = true ->
  fst (download_ocio_config env url hint w) = None /\
  files (snd (download_ocio_config env url hint w)) = files w /\
  requests (snd (download_ocio_config env url hint w)) = requests w ++ [url].
Proof.
  intros Hmiss Hfail. unfold download_ocio_config. rewrite Hmiss.
  destruct (urlopen env w url); try discriminate; done.
Qed.

Lemma X3_failed_fetch_leaves_files_witness :
  fst (download_ocio_config Cases.env_http_error Demo.url_a default_hint
         Demo.world) = None /\
  files (snd (download_ocio_config Cases.env_http_error Demo.url_a
                default_hint Demo.world)) = files Demo.world /\
  requests (snd (download_ocio_config Cases.env_http_error Demo.url_a
                   default_hint Demo.world))
  = requests Demo.world ++ [Demo.url_a].
Proof.
  apply (X3_failed_fetch_leaves_files Cases.env_http_error Demo.url_a
           default_hint Demo.world).
  - vm_compute. reflexivity.
  - reflexivity.
Defined.

(** ** ConfigResolver: what a resolution returns *)

(** X4: a path that the resolver returns names a file that exists when it
    returns, whatever the source: a local path that was found, or a cache
    file. *)
Theorem X4_resolved_path_exists {T : Type} (env : Env T)
    (source path url preset : string) (w w' : World T) (p : string) :
  find_or_download_ocio_config env source path url preset w = (Some p, w') ->
  is_Some (files w' !! p).
Proof.
  unfold find_or_download_ocio_config.
  destruct (decide (source = "Local Path" /\ path <> "")).
  { destruct (exists_path w path) eqn:Hex; [|discriminate].
    intros [= <- <-]. by apply bool_decide_eq_true in Hex. }
  destruct (decide (source = "URL" /\ url <> "")).
  { intros Hd. by apply download_some in Hd as [_ ?]. }
  destruct (decide (source = "Preset")).
  { destruct (preset_ocio_urls !! preset) as [preset_url|]; [|discriminate].
    destruct (decide (preset_url <> "")); [|discriminate].
    intros Hd. by apply download_some in Hd as [_ ?]. }
  destruct (decide (source = "Auto")); [|discriminate].
  destruct (find _ _) as [auto_path|] eqn:Hfind.
  - intros [= <- <-]. apply find_some in Hfind as [_ Hex].
    by apply bool_decide_eq_true in Hex.
  - destruct (preset_ocio_urls !! "ACES 1.3 CG Config"); [|discriminate].
    intros Hd. by apply download_some in Hd as [_ ?].
Qed.

Lemma X4_resolved_path_exists_witness :
  is_Some (files (snd (find_or_download_ocio_config Demo.env "Preset" "" ""
                         "ACES 2.0 CG Config" Demo.world))
             !! "ocio_cache/ocio_f2332c25_aces_2.0_cg_config.ocio").
Proof.
  apply (X4_resolved_path_exists Demo.env "Preset" "" "" "ACES 2.0 CG Config"
           Demo.world).
  vm_compute. reflexivity.
Defined.

(** X5: the resolver gives up without touching anything, neither the files
    nor the network, when the source is none of the four known ones, when the
    local path is empty or is not on disk, when the URL of the source "URL" is
    empty, and when the preset name is not in the table. *)
Theorem X5_resolver_gives_up_without_effect {T : Type} (env : Env T)
    (source path url preset : string) (w : World T) :
  source ∉ ["Local Path"; "URL"; "Preset"; "Auto"] \/
  (source = "Local Path" /\ (path = "" \/ exists_path w path = false)) \/
  (source = "URL" /\ url = "") \/
  (source = "Preset" /\ preset_ocio_urls !! preset = None) ->
  find_or_download_ocio_config env source path url preset w = (None, w).
Proof.
  unfold find_or_download_ocio_config.
  intros [Hsrc|[[-> Hpath]|[[-> ->]|[-> Hpreset]]]].
  - rewrite !not_elem_of_cons in Hsrc. destruct Hsrc as (H1 & H2 & H3 & H4 & _).
    rewrite decide_False by (intros [? _]; done).
    rewrite decide_False by (intros [? _]; done).
    by rewrite !decide_False by done.
  - destruct Hpath as [->|Hmissing].
    + rewrite decide_False by (intros [_ ?]; done).
      rewrite decide_False by (intros [? _]; done).
      by rewrite !decide_False by done.
    + destruct (decide ("Local Path" = "Local Path" /\ path <> ""));
        [by rewrite Hmissing|].
      rewrite decide_False by (intros [? _]; done).
      by rewrite !decide_False by done.
  - rewrite decide_False by (intros [? _]; done).
    rewrite decide_False by (intros [_ ?]; done).
    by rewrite !decide_False by done.
  - rewrite decide_False by (intros [? _]; done).
    rewrite decide_False by (intros [? _]; done).
    rewrite decide_True by done. by rewrite Hpreset.
Qed.

Lemma X5_resolver_gives_up_without_effect_witness :
  find_or_download_ocio_config Demo.env "Preset" "" "" "ACES 3.0" Demo.world
  = (None, Demo.world) /\
  find_or_download_ocio_config Demo.env "Local Path" "/etc/missing.ocio" "" ""
    Demo.world = (None, Demo.world).
Proof.
  split.
  - apply X5_resolver_gives_up_without_effect.
    right; right; right. split; [reflexivity | vm_compute; reflexivity].
  - apply X5_resolver_gives_up_without_effect.
    right; left. split; [reflexivity | right; vm_compute; reflexivity].
Defined.

Lemma find_first {A} (f : A -> bool) (l1 l2 : list A) (x : A) :
  Forall (fun y => f y = false) l1 -> f x = true ->
  find f (l1 ++ x :: l2) = Some x.
Proof.
  intros Hall Hx. induction Hall as [|y l1 Hy _ IH]; simpl.
  - by rewrite Hx.
  - by rewrite Hy.
Qed.

(** X6: with the source "Auto" a configuration found on disk wins over the
    network. The first of the conventional paths that exists is returned, in
    their order, and nothing is fetched: the world does not change. When none
    exists, the result is that of fetching the preset "ACES 1.3 CG Config"
    under the hint [aces13_cg.ocio]. *)
Theorem X6_auto_prefers_first_local_config {T : Type} (env : Env T)
    (path url preset : string) (w : World T) :
  (forall (before after : list string) (found : string),
      auto_paths env = before ++ found :: after ->
      Forall (fun p => exists_path w p = false) before ->
      exists_path w found = true ->
      find_or_download_ocio_config env "Auto" path url preset w
      = (Some found, w)) /\
  (Forall (fun p => exists_path w p = false) (auto_paths env) ->
   find_or_download_ocio_config env "Auto" path url preset w
   = download_ocio_config env
       "https://github.com/AcademySoftwareFoundation/OpenColorIO-Config-ACES/releases/download/v2.1.0-v2.2.0/cg-config-v2.2.0_aces-v1.3_ocio-v2.4.ocio"
       "aces13_cg.ocio" w).
Proof.
  assert (Hauto : find_or_download_ocio_config env "Auto" path url preset w
                  = match find (exists_path w) (auto_paths env) with
                    | Some auto_path => (Some auto_path, w)
                    | None =>
                        match preset_ocio_urls !! "ACES 1.3 CG Config" with
                        | Some preset_url =>
                            download_ocio_config env preset_url
                              "aces13_cg.ocio" w
                        | None => (None, w)
                        end
                    end).
  { unfold find_or_download_ocio_config.
    rewrite decide_False by (intros [? _]; done).
    rewrite decide_False by (intros [? _]; done).
    by rewrite decide_False by done. }
  split.
  - intros before after found Hsplit Hbefore Hfound.
    by rewrite Hauto, Hsplit, (find_first _ _ _ _ Hbefore Hfound).
  - intros Hnone. rewrite Hauto.
    destruct (find _ _) as [auto_path|] eqn:Hfind; [|reflexivity].
    apply find_some in Hfind as [Hin Hex].
    rewrite Forall_forall in Hnone.
    apply list_elem_of_In, Hnone in Hin. congruence.
Qed.

Lemma X6_auto_prefers_first_local_config_witness :
  find_or_download_ocio_config Demo.env "Auto" "" "" ""
    Cases.world_with_local_config
  = (Some "./ocio_configs/config.ocio", Cases.world_with_local_config).
Proof.
  apply (proj1 (X6_auto_prefers_first_local_config Demo.env "" "" ""
                  Cases.world_with_local_config)
           [ "./ocio_configs/cg-config-v2.2.0_aces-v1.3_ocio-v2.4.ocio";
             "./ocio_configs/studio-config-v2.2.0_aces-v1.3_ocio-v2.4.ocio" ]
           [ "./ocio_configs/aces_1.2/config.ocio";
             "/home/user/ComfyUI/ocio_configs/cg-config-v2.2.0_aces-v1.3_ocio-v2.4.ocio" ]).
  - reflexivity.
  - repeat constructor.
  - vm_compute. reflexivity.
Defined.

Lemma value_listed (m : gmap string string) (k v : string) :
  m !! k = Some v -> In v (map snd (map_to_list m)).
Proof.
  intros Hk. apply in_map_iff. exists (k, v). split; [reflexivity|].
  apply list_elem_of_In. by apply elem_of_map_to_list.
Qed.

Lemma preset_url_listed (preset preset_url : string) :
  preset_ocio_urls !! preset = Some preset_url -> In preset_url preset_urls.
Proof. exact (value_listed preset_ocio_urls preset preset_url). Qed.

(** X7: one resolution issues at most one network request, and only to the
    URL it was given or to a URL of the preset table: the log of requests is
    the old one, or the old one followed by one such URL. *)
Theorem X7_resolver_contacts_one_known_url {T : Type} (env : Env T)
    (source path url preset : string) (w : World T) :
  let w' := snd (find_or_download_ocio_config env source path url preset w) in
  requests w' = requests w \/
  exists contacted : string,
    requests w' = requests w ++ [contacted] /\
    (contacted = url \/ In contacted preset_urls).
Proof.
  intros w'. subst w'. unfold find_or_download_ocio_config.
  assert (Hdl : forall u hint,
             (u = url \/ In u preset_urls) ->
             requests (snd (download_ocio_config env u hint w)) = requests w \/
             exists contacted : string,
               requests (snd (download_ocio_config env u hint w))
               = requests w ++ [contacted] /\
               (contacted = url \/ In contacted preset_urls)).
  { intros u hint Hu.
    destruct (download_requests env u hint w) as [?|?]; [by left|].
    right. by exists u. }
  destruct (decide (source = "Local Path" /\ path <> "")).
  { left. by destruct (exists_path w path). }
  destruct (decide (source = "URL" /\ url <> "")); [apply Hdl; by left|].
  destruct (decide (source = "Preset")).
  { destruct (preset_ocio_urls !! preset) as [preset_url|] eqn:Hp;
      [|by left].
    destruct (decide (preset_url <> "")); [|by left].
    apply Hdl. right. by apply (preset_url_listed preset). }
  destruct (decide (source = "Auto")); [|by left].
  destruct (find _ _); [by left|].
  destruct (preset_ocio_urls !! "ACES 1.3 CG Config") as [preset_url|] eqn:Hp;
    [|by left].
  apply Hdl. right. by apply (preset_url_listed "ACES 1.3 CG Config").
Qed.

(** ** The hash in the cache filename *)

Lemma hex_digit_lower (n : Z) :
  (0 <= n < 16)%Z -> is_lower_hex (MD5.hex_digit n) = true.
Proof.
  intros Hn.
  assert (Hcases : In n [0; 1; 2; 3; 4; 5; 6; 7; 8; 9; 10; 11; 12; 13; 14; 15]%Z)
    by (simpl; lia).
  simpl in Hcases.
  repeat (destruct Hcases as [<-|Hcases]; [reflexivity|]). done.
Qed.

Lemma hex_lower (bs : list Z) :
  Forall (fun b => (0 <= b < 256)%Z) bs ->
  Forall (fun c => is_lower_hex c = true) (list_ascii_of_string (MD5.hex bs)).
Proof.
  induction 1 as [|b bs Hb _ IH]; simpl; [constructor|].
  constructor; [|constructor; [|exact IH]]; apply hex_digit_lower.
  - split; [apply Z.div_pos; lia | apply Z.div_lt_upper_bound; lia].
  - apply Z.mod_pos_bound. lia.
Qed.

Lemma le_bytes_range (n : nat) (x : Z) :
  Forall (fun b => (0 <= b < 256)%Z) (MD5.le_bytes n x).
Proof.
  revert x. induction n as [|n IH]; intros x; simpl; constructor; [|apply IH].
  apply Z.mod_pos_bound. lia.
Qed.

Lemma str_take_forall (P : ascii -> Prop) (n : nat) (s : string) :
  Forall P (list_ascii_of_string s) ->
  Forall P (list_ascii_of_string (Py.str_take n s)).
Proof.
  revert s. induction n as [|n IH]; intros [|c s] Hs; simpl;
    try constructor.
  - by inversion Hs.
  - apply IH. by inversion Hs.
Qed.

(** X8: for every URL the hash that enters the cache filename is exactly
    eight characters long and each of them is one of [0-9a-f]; the full MD5
    digest has thirty-two such characters. *)
Theorem X8_url_hash_is_eight_lower_hex_digits (url : string) :
  String.length (url_hash url) = 8 /\
  Forall (fun c => is_lower_hex c = true)
    (list_ascii_of_string (url_hash url)) /\
  String.length (MD5.hexdigest url) = 32.
Proof.
  split; [apply length_url_hash|]. split.
  - unfold url_hash. apply str_take_forall.
    unfold MD5.hexdigest. apply hex_lower. unfold MD5.digest.
    destruct (fold_left _ _ _) as [[[a b] c] d].
    rewrite !Forall_app. repeat split; apply le_bytes_range.
  - unfold MD5.hexdigest. rewrite length_hex, length_digest. reflexivity.
Qed.

(** ** Rows of three: the reshape of [matrix_transform] *)

Lemma chunks_fuel_cons {A} (fuel n : nat) (x : A) (l : list A) :
  Py.chunks_fuel (S fuel) n (x :: l)
  = take n (x :: l) :: Py.chunks_fuel fuel n (drop n (x :: l)).
Proof. reflexivity. Qed.

Lemma chunks_fuel_nil {A} (fuel n : nat) :
  Py.chunks_fuel fuel n ([] : list A) = [].
Proof. by destruct fuel. Qed.

Lemma chunks_fuel_enough {A} (n : nat) (f1 f2 : nat) (l : list A) :
  0 < n -> length l <= f1 -> length l <= f2 ->
  Py.chunks_fuel f1 n l = Py.chunks_fuel f2 n l.
Proof.
  intros Hn. revert f2 l.
  induction f1 as [|f1 IH]; intros f2 [|x l] H1 H2;
    rewrite ?chunks_fuel_nil; try reflexivity; simpl in H1; [lia|].
  destruct f2 as [|f2]; [simpl in H2; lia|].
  rewrite !chunks_fuel_cons. f_equal.
  apply IH; rewrite length_drop; simpl in *; lia.
Qed.

(** Cutting a concatenation of rows of [n] elements gives the rows back. *)
Lemma chunks_concat {A} (n : nat) (rows : list (list A)) :
  0 < n -> Forall (fun row => length row = n) rows ->
  Py.chunks n (concat rows) = rows.
Proof.
  intros Hn Hrows. induction Hrows as [|row rows Hrow _ IH]; [reflexivity|].
  unfold Py.chunks in *. simpl concat.
  destruct row as [|x row]; [simpl in Hrow; lia|].
  rewrite <- app_comm_cons. simpl length. rewrite chunks_fuel_cons.
  rewrite app_comm_cons.
  rewrite (take_app_length' (x :: row)) by done.
  rewrite (drop_app_length' (x :: row)) by done.
  f_equal. etransitivity; [|exact IH].
  apply chunks_fuel_enough; [done | rewrite length_app; lia | lia].
Qed.

(** A list whose length is a multiple of [n] is the concatenation of rows
    of [n] elements. *)
Lemma rows_of_multiple {A} (n k : nat) (l : list A) :
  length l = k * n ->
  exists rows, l = concat rows /\ Forall (fun row => length row = n) rows
               /\ length rows = k.
Proof.
  revert l. induction k as [|k IH]; intros l Hl.
  - exists []. destruct l; [done | simpl in Hl; lia].
  - destruct (IH (drop n l)) as (rows & Hrows & Hall & Hk);
      [rewrite length_drop; lia|].
    exists (take n l :: rows). split; [|split].
    + simpl. by rewrite <- Hrows, take_drop.
    + constructor; [rewrite length_take; lia | done].
    + simpl. by rewrite Hk.
Qed.

Section MatrixFacts.
Context {T : Type} `{Sample T}.

Lemma matrix_transform_raises (image : ndarray T) (matrix : list (list T)) :
  size image mod 3 <> 0 ->
  matrix_transform image matrix
  = Raises (ValueError ("cannot reshape array of size "
              +:+ Py.str_nat (size image) +:+ " into shape (3)")).
Proof.
  intros Hsize. unfold matrix_transform.
  by destruct (Nat.eqb_spec (size image mod 3) 0).
Qed.

Lemma length_concat_matvec (matrix : list (list T)) (rows : list (list T)) :
  length (concat (map (matvec matrix) rows)) = length rows * length matrix.
Proof.
  induction rows as [|row rows IH]; [reflexivity|].
  simpl. rewrite length_app, IH. unfold matvec. by rewrite length_map.
Qed.

End MatrixFacts.

(** X9: [matrix_transform] works pixel by pixel. On an array whose samples
    are the pixels [p1, p2, ...] one after the other, three samples each, and
    whose shape holds a multiple of three samples, it returns the same shape
    with the pixels [M p1, M p2, ...], where [M (r, g, b)] has the entries
    [r * m[i][0] + g * m[i][1] + b * m[i][2]]: no pixel depends on
    another. *)
Theorem X9_matrix_transform_is_pixelwise {T : Type} `{Sample T}
    (sh : list nat) (pixels : list (list T)) (matrix : list (list T)) :
  size_of sh mod 3 = 0 ->
  Forall (fun pixel => length pixel = 3) pixels ->
  matrix_transform (NDArray sh (concat pixels)) matrix
  = Returns (NDArray sh (concat (map (matvec matrix) pixels))) /\
  (forall r g b m00 m01 m02 m10 m11 m12 m20 m21 m22 : T,
      matvec [[m00; m01; m02]; [m10; m11; m12]; [m20; m21; m22]] [r; g; b]
      = [ fadd (fadd (fmul r m00) (fmul g m01)) (fmul b m02);
          fadd (fadd (fmul r m10) (fmul g m11)) (fmul b m12);
          fadd (fadd (fmul r m20) (fmul g m21)) (fmul b m22) ]).
Proof.
  intros Hsize Hpixels. split; [|reflexivity].
  unfold matrix_transform, size. cbn [shape data]. rewrite Hsize.
  cbn [Nat.eqb]. rewrite chunks_concat; [reflexivity | lia | exact Hpixels].
Qed.

Lemma X9_matrix_transform_is_pixelwise_witness :
  matrix_transform (NDArray [1; 2; 3] (concat [[1%Q; 0%Q; 0%Q]; [0%Q; 1%Q; 0%Q]]))
    (ACES2065_TO_ACESCG_MATRIX (T:=Q))
  = Returns (NDArray [1; 2; 3]
               (concat (map (matvec ACES2065_TO_ACESCG_MATRIX)
                          [[1%Q; 0%Q; 0%Q]; [0%Q; 1%Q; 0%Q]]))).
Proof.
  apply (X9_matrix_transform_is_pixelwise [1; 2; 3]).
  - reflexivity.
  - repeat constructor.
Defined.

(** X10: [matrix_transform] with a matrix of three rows keeps the array
    well formed: when it returns, the shape is the one of the input, and an
    input whose number of samples is a multiple of three keeps that number of
    samples. *)
Theorem X10_matrix_transform_keeps_shape_and_count {T : Type} `{Sample T}
    (image result : ndarray T) (matrix : list (list T)) (k : nat) :
  matrix_transform image matrix = Returns result ->
  length matrix = 3 ->
  length (data image) = k * 3 ->
  shape result = shape image /\ length (data result) = length (data image).
Proof.
  intros Hres Hrows Hlen. split; [by apply shape_matrix_transform in Hres|].
  unfold matrix_transform in Hres.
  destruct (size image mod 3 =? 0)%nat; [|discriminate].
  injection Hres as <-. simpl.
  destruct (rows_of_multiple 3 k (data image) Hlen) as (rows & Hd & Hall & Hk).
  rewrite Hd at 1. rewrite chunks_concat; [|lia|exact Hall].
  rewrite length_concat_matvec, Hrows, Hk. lia.
Qed.

Lemma X10_matrix_transform_keeps_shape_and_count_witness :
  exists result : ndarray Q,
    matrix_transform Demo.green_pixel SRGB_TO_ACES2065_MATRIX = Returns result
    /\ shape result = [1; 1; 3] /\ length (data result) = 3.
Proof.
  eexists. split; [reflexivity|].
  apply (X10_matrix_transform_keeps_shape_and_count Demo.green_pixel _
           SRGB_TO_ACES2065_MATRIX 1); reflexivity.
Defined.

(** ** ColorSpaceConverter: errors, shapes and composition *)

Lemma matrix_pair_differs (input_cs output_cs : string) :
  (input_cs, output_cs) ∈ matrix_pairs -> input_cs <> output_cs.
Proof.
  unfold matrix_pairs. rewrite !elem_of_cons.
  intros [[= -> ->]|[[= -> ->]|[[= -> ->]|[[= -> ->]|Hin]]]];
    try discriminate.
  by apply elem_of_nil in Hin.
Qed.

Lemma convert_raises {T : Type} `{Sample T} (image : ndarray T)
    (input_cs output_cs : string) :
  (input_cs, output_cs) ∈ matrix_pairs -> size image mod 3 <> 0 ->
  convert_colorspace image input_cs output_cs
  = Raises (ValueError ("cannot reshape array of size "
              +:+ Py.str_nat (size image) +:+ " into shape (3)")).
Proof.
  intros Hin Hsize. unfold matrix_pairs in Hin. rewrite !elem_of_cons in Hin.
  assert (Hlin : size (srgb_to_linear image) mod 3 <> 0) by exact Hsize.
  destruct Hin as [[= -> ->]|[[= -> ->]|[[= -> ->]|[[= -> ->]|Hin]]]].
  - rewrite convert_srgb_aces2065.
    by rewrite (matrix_transform_raises _ _ Hlin).
  - rewrite convert_aces2065_acescg.
    by rewrite (matrix_transform_raises _ _ Hsize).
  - rewrite convert_srgb_acescg.
    by rewrite (matrix_transform_raises _ _ Hlin).
  - change (convert_colorspace image "Linear sRGB" "ACES2065-1")
      with (try! result <- matrix_transform image SRGB_TO_ACES2065_MATRIX;
            Returns (result, "Matrix: Linear sRGB -> ACES2065-1")).
    by rewrite (matrix_transform_raises _ _ Hsize).
  - by apply elem_of_nil in Hin.
Qed.

Lemma convert_outside_matrix_pairs {T : Type} `{Sample T}
    (image : ndarray T) (input_cs output_cs : string) :
  input_cs <> output_cs -> (input_cs, output_cs) ∉ matrix_pairs ->
  convert_colorspace image input_cs output_cs
  = Returns (image, unsupported_description input_cs output_cs).
Proof.
  intros Hne Hout. unfold matrix_pairs in Hout.
  rewrite !not_elem_of_cons in Hout. destruct Hout as (H1 & H2 & H3 & H4 & _).
  unfold convert_colorspace.
  rewrite decide_False by assumption.
  rewrite decide_False by (intros [-> ->]; by apply H1).
  rewrite decide_False by (intros [-> ->]; by apply H2).
  rewrite decide_False by (intros [-> ->]; by apply H3).
  rewrite decide_False by (intros [-> ->]; by apply H4).
  reflexivity.
Qed.

(** X11: [convert_colorspace] raises in one situation only: the pair of
    colour spaces is one of the four matrix pairs and the number of samples
    of the shape is not a multiple of three. The exception is then the
    ValueError of the reshape. *)
Theorem X11_convert_raises_exactly_on_bad_reshape {T : Type} `{Sample T}
    (image : ndarray T) (input_cs output_cs : string) :
  ((exists e, convert_colorspace image input_cs output_cs = Raises e) <->
   (input_cs, output_cs) ∈ matrix_pairs /\ size image mod 3 <> 0) /\
  (forall e, convert_colorspace image input_cs output_cs = Raises e ->
     e = ValueError ("cannot reshape array of size "
           +:+ Py.str_nat (size image) +:+ " into shape (3)")).
Proof.
  assert (Hiff : (exists e, convert_colorspace image input_cs output_cs
                            = Raises e) ->
                 (input_cs, output_cs) ∈ matrix_pairs
                 /\ size image mod 3 <> 0).
  { intros [e He].
    destruct (decide ((input_cs, output_cs) ∈ matrix_pairs)) as [Hin|Hout].
    - split; [exact Hin|]. intros Hsize.
      destruct (convert_returns image input_cs output_cs (or_introl Hsize))
        as [r Hr]. congruence.
    - destruct (convert_returns image input_cs output_cs
                  (or_intror (or_intror Hout))) as [r Hr]. congruence. }
  split; [split; [exact Hiff|]|].
  - intros [Hin Hsize]. eexists. by apply convert_raises.
  - intros e He. destruct (Hiff (ex_intro _ e He)) as [Hin Hsize].
    rewrite (convert_raises image _ _ Hin Hsize) in He. by injection He.
Qed.

(** X12: when [convert_colorspace] returns, the array has the shape of the
    input; and outside the four matrix pairs it is the input array itself,
    so that samples change for those four pairs only. *)
Theorem X12_convert_keeps_shape {T : Type} `{Sample T}
    (image result : ndarray T) (input_cs output_cs description : string) :
  convert_colorspace image input_cs output_cs
  = Returns (result, description) ->
  shape result = shape image /\
  ((input_cs, output_cs) ∉ matrix_pairs -> result = image).
Proof.
  intros Hconv.
  destruct (decide ((input_cs, output_cs) ∈ matrix_pairs)) as [Hin|Hout].
  - split; [|done]. unfold matrix_pairs in Hin.
    rewrite !elem_of_cons in Hin.
    destruct Hin as [[= -> ->]|[[= -> ->]|[[= -> ->]|[[= -> ->]|Hin]]]].
    + rewrite convert_srgb_aces2065 in Hconv.
      destruct (matrix_transform _ _) as [r|] eqn:Hr; [|discriminate].
      injection Hconv as <- _. by apply shape_matrix_transform in Hr.
    + rewrite convert_aces2065_acescg in Hconv.
      destruct (matrix_transform _ _) as [r|] eqn:Hr; [|discriminate].
      injection Hconv as <- _. by apply shape_matrix_transform in Hr.
    + rewrite convert_srgb_acescg in Hconv.
      destruct (matrix_transform (srgb_to_linear image) _) as [r|] eqn:Hr;
        [|discriminate]. simpl in Hconv.
      destruct (matrix_transform r _) as [r'|] eqn:Hr'; [|discriminate].
      injection Hconv as <- _.
      apply shape_matrix_transform in Hr, Hr'. by rewrite Hr', Hr.
    + change (convert_colorspace image "Linear sRGB" "ACES2065-1")
        with (try! result <- matrix_transform image SRGB_TO_ACES2065_MATRIX;
              Returns (result, "Matrix: Linear sRGB -> ACES2065-1"))
        in Hconv.
      destruct (matrix_transform _ _) as [r|] eqn:Hr; [|discriminate].
      injection Hconv as <- _. by apply shape_matrix_transform in Hr.
    + by apply elem_of_nil in Hin.
  - assert (Himage : result = image).
    { destruct (decide (input_cs = output_cs)) as [->|Hne].
      - rewrite convert_same in Hconv. by injection Hconv as <- _.
      - rewrite (convert_outside_matrix_pairs image _ _ Hne Hout) in Hconv.
        by injection Hconv as <- _. }
    split; [by rewrite Himage | done].
Qed.

Lemma X12_convert_keeps_shape_witness :
  exists result description,
    convert_colorspace Demo.green_pixel "ACES2065-1" "ACEScg"
    = Returns (result, description) /\ shape result = [1; 1; 3].
Proof.
  eexists _, _. split; [reflexivity|].
  apply (X12_convert_keeps_shape Demo.green_pixel _ "ACES2065-1" "ACEScg"
           "Matrix: ACES2065-1 -> ACEScg").
  reflexivity.
Defined.

(** X13: the path from Linear sRGB and the path from sRGB differ by the
    linearization only: converting the linearized buffer from Linear sRGB to
    ACES2065-1 gives the buffer that converting the original from sRGB
    gives, errors included. *)
Theorem X13_linear_srgb_path_skips_linearization {T : Type} `{Sample T}
    (buffer : ndarray T) :
  converted_buffer
    (convert_colorspace (srgb_to_linear buffer) "Linear sRGB" "ACES2065-1")
  = converted_buffer (convert_colorspace buffer "sRGB" "ACES2065-1").
Proof.
  rewrite convert_srgb_aces2065.
  change (convert_colorspace (srgb_to_linear buffer) "Linear sRGB"
            "ACES2065-1")
    with (try! result <- matrix_transform (srgb_to_linear buffer)
                           SRGB_TO_ACES2065_MATRIX;
          Returns (result, "Matrix: Linear sRGB -> ACES2065-1")).
  by destruct (matrix_transform _ _).
Qed.

(** ** The clamp *)

(** X14: in an arithmetic without NaN the clamp is idempotent, and an array
    of non-negative samples that needs no squeeze goes through
    [tensor_to_numpy] unchanged. *)
Theorem X14_clamp_is_idempotent {T : Type} `{SampleOrder T}
    (tensor : ndarray T) :
  data (tensor_to_numpy (tensor_to_numpy tensor))
  = data (tensor_to_numpy tensor) /\
  (length (shape tensor) <> 4 ->
   Forall (fun v => fle (flit 0) v = true) (data tensor) ->
   tensor_to_numpy tensor = tensor).
Proof.
  split.
  - rewrite !data_tensor_to_numpy, map_map. apply map_ext. intros v.
    rewrite (fmax_fle (fmax v (flit 0))). by rewrite fmax_nonneg.
  - intros Hlen Hall.
    assert (Hdata : data (tensor_to_numpy tensor) = data tensor).
    { rewrite data_tensor_to_numpy. rewrite <- (map_id (data tensor)) at 2.
      apply map_ext_Forall. eapply Forall_impl; [exact Hall|].
      intros v Hv. simpl in *. by rewrite fmax_fle, Hv. }
    assert (Hshape := shape_tensor_to_numpy tensor Hlen).
    destruct (tensor_to_numpy tensor) as [sh d], tensor as [sh' d'].
    simpl in *. by subst.
Qed.

Lemma X14_clamp_is_idempotent_witness :
  data (tensor_to_numpy (tensor_to_numpy Demo.raw_frame))
  = data (tensor_to_numpy Demo.raw_frame) /\
  tensor_to_numpy Demo.green_pixel = Demo.green_pixel.
Proof.
  split.
  - apply (X14_clamp_is_idempotent Demo.raw_frame).
  - apply (X14_clamp_is_idempotent Demo.green_pixel).
    + simpl. lia.
    + repeat constructor.
Defined.

(** ** Exact arithmetic: what the two matrices do to colours *)

Lemma matrix_transform_rows {T : Type} `{Sample T}
    (sh : list nat) (pixels : list (list T)) (matrix : list (list T)) :
  size_of sh mod 3 = 0 ->
  Forall (fun pixel => length pixel = 3) pixels ->
  matrix_transform (NDArray sh (concat pixels)) matrix
  = Returns (NDArray sh (concat (map (matvec matrix) pixels))).
Proof.
  intros Hsize Hpixels.
  unfold matrix_transform, size. cbn [shape data]. rewrite Hsize.
  cbn [Nat.eqb]. rewrite chunks_concat; [reflexivity | lia | exact Hpixels].
Qed.

Lemma grey_to_acescg (g : Q) :
  Forall2 Qeq (matvec (ACES2065_TO_ACESCG_MATRIX (T:=Q)) [g; g; g]) [g; g; g].
Proof.
  unfold matvec, ACES2065_TO_ACESCG_MATRIX, Matrices.ACES2065_TO_ACESCG, dot.
  simpl. repeat constructor; rewrite !Qred_correct; ring.
Qed.

(** X15: in exact arithmetic the matrix from ACES2065-1 to ACEScg leaves
    neutral colours alone (each of its rows sums to one): an image of grey
    pixels [(g, g, g)] converts to an image of the same shape whose samples
    equal, as rationals, those of the input. *)
Theorem X15_acescg_matrix_preserves_greys (sh : list nat) (greys : list Q) :
  size_of sh mod 3 = 0 ->
  exists d : list Q,
    convert_colorspace
      (NDArray sh (concat (map (fun g => [g; g; g]) greys)))
      "ACES2065-1" "ACEScg"
    = Returns (NDArray sh d, "Matrix: ACES2065-1 -> ACEScg") /\
    Forall2 Qeq d (concat (map (fun g => [g; g; g]) greys)).
Proof.
  intros Hsize. rewrite convert_aces2065_acescg.
  rewrite (matrix_transform_rows sh _ _ Hsize)
    by (apply Forall_forall; intros p (g & _ & ->)%elem_of_map; reflexivity).
  eexists. split; [reflexivity|].
  induction greys as [|g greys IH]; [constructor|].
  cbn [map concat].
  apply Forall2_app; [apply grey_to_acescg | exact IH].
Qed.

Lemma X15_acescg_matrix_preserves_greys_witness :
  exists d : list Q,
    convert_colorspace
      (NDArray [1; 2; 3]
         (concat (map (fun g => [g; g; g]) [0.18%Q; 1%Q])))
      "ACES2065-1" "ACEScg"
    = Returns (NDArray [1; 2; 3] d, "Matrix: ACES2065-1 -> ACEScg") /\
    Forall2 Qeq d (concat (map (fun g => [g; g; g]) [0.18%Q; 1%Q])).
Proof.
  apply (X15_acescg_matrix_preserves_greys [1; 2; 3] [0.18%Q; 1%Q]).
  reflexivity.
Defined.

Section NonNegative.
Local Open Scope Q_scope.

Lemma bisect_nonneg (steps : nat) (q : positive) (y lo hi : Q) :
  0 <= lo -> 0 <= hi -> 0 <= QSample.bisect steps q y lo hi.
Proof.
  revert lo hi. induction steps as [|n IH]; intros lo hi Hlo Hhi; simpl;
    [exact Hlo|].
  assert (Hmid : 0 <= Qred ((lo + hi) / 2)).
  { rewrite Qred_correct. apply Qle_shift_div_l; [reflexivity|].
    rewrite Qmult_0_l. rewrite <- (Qplus_0_l 0). by apply Qplus_le_compat. }
  destruct (Qle_bool _ y); by apply IH.
Qed.

Lemma pow_nonneg (b e : Q) : 0 <= QSample.pow b e.
Proof.
  unfold QSample.pow. destruct (Qle_bool b 0) eqn:Hb; [apply Qle_refl|].
  assert (Hpos : 0 <= b).
  { destruct (Qlt_le_dec b 0) as [Hlt|Hle]; [|exact Hle].
    apply Qlt_le_weak, Qle_bool_iff in Hlt. congruence. }
  assert (Hy : 0 <= Qred (Qpower b (Qnum (Qred e))))
    by (rewrite Qred_correct; by apply Qpower_0_le).
  destruct (Qden (Qred e)); try exact Hy;
    (set (hi := if Qle_bool _ 1 then 1 else _);
     assert (Hhi : 0 <= hi)
       by (subst hi; destruct (Qle_bool _ 1); [discriminate | exact Hy]);
     destruct (Qle_bool (Qpower hi _) _);
     [exact Hhi | by apply bisect_nonneg; [apply Qle_refl|]]).
Qed.

Lemma srgb_to_linear_sample_nonneg (v : Q) :
  0 <= v -> 0 <= srgb_to_linear_sample v.
Proof.
  intros Hv. unfold srgb_to_linear_sample.
  destruct (fle v _); [|apply pow_nonneg].
  simpl. rewrite Qred_correct.
  apply Qle_shift_div_l; [reflexivity | by rewrite Qmult_0_l].
Qed.

Lemma fold_fadd_nonneg (ps : list Q) (p : Q) :
  0 <= p -> Forall (fun x => 0 <= x) ps -> 0 <= fold_left fadd ps p.
Proof.
  revert p. induction ps as [|x ps IH]; intros p Hp Hall; simpl;
    [exact Hp|].
  inversion Hall as [|? ? Hx Hps]; subst. apply IH; [|exact Hps].
  rewrite Qred_correct. rewrite <- (Qplus_0_l 0). by apply Qplus_le_compat.
Qed.

Lemma zip_fmul_nonneg (row mrow : list Q) :
  Forall (fun x => 0 <= x) row -> Forall (fun x => 0 <= x) mrow ->
  Forall (fun x => 0 <= x) (zip_with fmul row mrow).
Proof.
  intros Hrow. revert mrow.
  induction Hrow as [|x row Hx _ IH]; intros mrow Hm; [constructor|].
  destruct Hm as [|m mrow Hm0 Hm]; simpl; constructor; [|by apply IH].
  rewrite Qred_correct. by apply Qmult_le_0_compat.
Qed.

Lemma dot_nonneg (row mrow : list Q) :
  Forall (fun x => 0 <= x) row -> Forall (fun x => 0 <= x) mrow ->
  0 <= dot row mrow.
Proof.
  intros Hrow Hm. unfold dot.
  destruct (zip_fmul_nonneg row mrow Hrow Hm) as [|p ps Hp Hps];
    [discriminate|].
  by apply fold_fadd_nonneg.
Qed.

Lemma chunks_fuel_forall {A} (P : A -> Prop) (fuel n : nat) (l : list A) :
  Forall P l -> Forall (Forall P) (Py.chunks_fuel fuel n l).
Proof.
  revert l. induction fuel as [|fuel IH]; intros [|x l] Hl;
    try constructor.
  - by apply Forall_take.
  - apply IH. by apply Forall_drop.
Qed.

Lemma matrix_transform_nonneg (image result : ndarray Q)
    (matrix : list (list Q)) :
  Forall (Forall (fun x => 0 <= x)) matrix ->
  Forall (fun x => 0 <= x) (data image) ->
  matrix_transform image matrix = Returns result ->
  Forall (fun x => 0 <= x) (data result).
Proof.
  intros Hm Hdata. unfold matrix_transform.
  destruct (size image mod 3 =? 0)%nat; [|discriminate].
  intros [= <-]. simpl. apply Forall_concat.
  assert (Hrows := chunks_fuel_forall _ (length (data image)) 3 _ Hdata).
  fold (Py.chunks 3 (data image)) in Hrows.
  induction Hrows as [|row rows Hrow _ IH]; simpl; constructor; [|exact IH].
  unfold matvec. clear IH.
  induction Hm as [|mrow matrix Hmrow _ IHm]; simpl; constructor;
    [by apply dot_nonneg | exact IHm].
Qed.

Lemma srgb_matrix_nonneg :
  Forall (Forall (fun x => 0 <= x)) (SRGB_TO_ACES2065_MATRIX (T:=Q)).
Proof. repeat constructor; discriminate. Qed.

Lemma clamped_nonneg (tensor : ndarray Q) :
  Forall (fun x => 0 <= x) (data (tensor_to_numpy tensor)).
Proof.
  rewrite data_tensor_to_numpy. apply Forall_forall.
  intros v (x & _ & ->)%elem_of_map.
  apply Qle_bool_iff. change (fle (flit 0) (fmax x (flit 0)) = true).
  apply fmax_nonneg.
Qed.

End NonNegative.

(** X16: in exact arithmetic, an output in ACES2065-1 has no negative
    sample. For every tensor, when the clamped array is converted from sRGB
    or from Linear sRGB to ACES2065-1, every sample of the result is
    non-negative: the linearization keeps the sign and the matrix has no
    negative coefficient. *)
Theorem X16_aces2065_output_is_non_negative (tensor result : ndarray Q)
    (input_cs description : string) :
  input_cs = "sRGB" \/ input_cs = "Linear sRGB" ->
  convert_colorspace (tensor_to_numpy tensor) input_cs "ACES2065-1"
  = Returns (result, description) ->
  Forall (fun v => fle (flit 0) v = true) (data result).
Proof.
  intros Hcs Hconv.
  assert (Hres : Forall (fun x => (0 <= x)%Q) (data result)).
  { destruct Hcs as [-> | ->].
    - rewrite convert_srgb_aces2065 in Hconv.
      destruct (matrix_transform _ _) as [r|] eqn:Hr; [|discriminate].
      injection Hconv as <- _.
      apply (matrix_transform_nonneg _ _ _ srgb_matrix_nonneg) in Hr;
        [exact Hr|].
      simpl. apply Forall_forall. intros v (x & Hx & ->)%elem_of_map.
      apply srgb_to_linear_sample_nonneg.
      pose proof (clamped_nonneg tensor) as Hall.
      rewrite Forall_forall in Hall. by apply Hall.
    - change (convert_colorspace (tensor_to_numpy tensor) "Linear sRGB"
                "ACES2065-1")
        with (try! r <- matrix_transform (tensor_to_numpy tensor)
                          SRGB_TO_ACES2065_MATRIX;
              Returns (r, "Matrix: Linear sRGB -> ACES2065-1")) in Hconv.
      destruct (matrix_transform _ _) as [r|] eqn:Hr; [|discriminate].
      injection Hconv as <- _.
      exact (matrix_transform_nonneg _ _ _ srgb_matrix_nonneg
               (clamped_nonneg tensor) Hr). }
  eapply Forall_impl; [exact Hres|].
  intros v Hv. simpl in *. apply Qle_bool_iff. exact Hv.
Qed.

Lemma X16_aces2065_output_is_non_negative_witness :
  exists result description,
    convert_colorspace (tensor_to_numpy Demo.raw_frame) "sRGB" "ACES2065-1"
    = Returns (result, description) /\
    Forall (fun v => fle (flit 0) v = true) (data result).
Proof.
  assert (Hc : exists r, convert_colorspace (tensor_to_numpy Demo.raw_frame)
                           "sRGB" "ACES2065-1" = Returns r)
    by (vm_compute; eexists; reflexivity).
  destruct Hc as [[result description] Hc].
  exists result, description. split; [exact Hc|].
  exact (X16_aces2065_output_is_non_negative Demo.raw_frame result "sRGB"
           description (or_introl eq_refl) Hc).
Defined.

(** ** The EXR writer *)

Section WriterFacts.
Context {T : Type} `{Sample T}.
Variable env : Env T.

(** An array that is not three-dimensional, or that is empty, is refused
    before the library is asked. *)
Lemma save_exr_aces_refused_early (image_array : ndarray T)
    (filepath colorspace compression pixel_type : string) (w : World T) :
  length (shape image_array) <> 3 \/ data image_array = [] ->
  exists msg,
    save_exr_aces env image_array filepath colorspace compression pixel_type w
    = ((false, "Ошибка EXR: " +:+ msg), w).
Proof.
  intros Hbad. unfold save_exr_aces, exr_error.
  destruct (shape image_array) as [|h [|wd [|c [|x rest]]]] eqn:Hshape;
    try by eexists.
  destruct Hbad as [Hlen|Hdata]; [simpl in Hlen; lia|].
  rewrite Hdata. by eexists.
Qed.

(** What a call that reaches the library does: the description of the image
    it hands over, and its answer for each answer of the library. *)
Lemma save_exr_aces_inv (image_array : ndarray T)
    (filepath colorspace compression pixel_type : string) (w : World T)
    (h wd c : nat) (max_val : T) :
  shape image_array = [h; wd; c] ->
  reduce fmax (data image_array) = Some max_val ->
  exists (spec : ImageSpec) (range done : string),
    width spec = wd /\ height spec = h /\ nchannels spec = c /\
    format spec = (if decide (pixel_type = "half") then HALF else FLOAT) /\
    attributes spec
    = [ ("compression", compression); ("oiio:ColorSpace", colorspace);
        ("ColorSpace", colorspace);
        ("Software", "ComfyUI ACES EXR OCIO Node");
        ("Description", "ACES " +:+ colorspace
           +:+ " EXR from ComfyUI with OCIO support");
        ("ComfyUI:Node", "ACESEXRSaveOCIO");
        ("ComfyUI:Workflow", "WAN -> sRGB -> ACES") ]
      ++ colorspace_attributes colorspace
      ++ [ ("OriginalRange", range) ]
      ++ (if flt (flit 1) max_val
          then [ ("HDR", "true"); ("MaxLuminance", ffmt 3 max_val) ]
          else []) /\
    save_exr_aces env image_array filepath colorspace compression pixel_type w
    = match oiio env w filepath spec image_array with
      | CreateRefused =>
          (exr_error ("Невозможно создать EXR output для " +:+ filepath), w)
      | OpenRefused =>
          (exr_error ("Невозможно открыть " +:+ filepath
                        +:+ " для записи EXR"), w)
      | WriteRefused n =>
          (exr_error "Ошибка записи EXR данных",
           with_exr_write w filepath spec image_array n)
      | LibraryError msg => (exr_error msg, w)
      | Written n =>
          ((true, done), with_exr_write w filepath spec image_array n)
      end.
Proof.
  intros Hshape Hmax. unfold save_exr_aces. rewrite Hshape, Hmax.
  destruct (data image_array) as [|x xs]; [discriminate|]. simpl reduce.
  cbv beta iota.
  match goal with
  | |- context [oiio env w filepath ?s _] => exists s
  end.
  eexists _, _. repeat (split; [reflexivity|]).
  destruct (oiio env w filepath _ image_array); reflexivity.
Qed.

End WriterFacts.

Lemma shape_of_length_three {T : Type} (a : ndarray T) :
  length (shape a) = 3 -> exists h wd c, shape a = [h; wd; c].
Proof.
  destruct (shape a) as [|h [|wd [|c [|x rest]]]]; try discriminate.
  intros _. by exists h, wd, c.
Qed.

(** X17: [save_exr_aces] reports success only for a write that took place:
    the array is three-dimensional and not empty, the library answered that
    it wrote the image, under a specification with the width, height and
    channel count of the array and the pixel format asked for ([half] gives
    HALF, anything else FLOAT); the file is then recorded under the path,
    the image is the last one handed to the library, and no network request
    was made. *)
Theorem X17_exr_success_is_a_recorded_write {T : Type} `{Sample T}
    (env : Env T) (image_array : ndarray T)
    (filepath colorspace compression pixel_type : string) (w : World T) :
  let r := save_exr_aces env image_array filepath colorspace compression
             pixel_type w in
  fst (fst r) = true ->
  exists (h wd c : nat) (spec : ImageSpec) (n : nat),
    shape image_array = [h; wd; c] /\ data image_array <> [] /\
    oiio env w filepath spec image_array = Written n /\
    width spec = wd /\ height spec = h /\ nchannels spec = c /\
    format spec = (if decide (pixel_type = "half") then HALF else FLOAT) /\
    files (snd r) !! filepath = Some n /\
    exr_writes (snd r) = exr_writes w ++ [(filepath, spec, image_array)] /\
    requests (snd r) = requests w.
Proof.
  intros r Hok. subst r.
  destruct (decide (length (shape image_array) = 3)) as [Hlen|Hlen].
  2:{ destruct (save_exr_aces_refused_early env image_array filepath
                  colorspace compression pixel_type w (or_introl Hlen))
        as [msg Hr]. rewrite Hr in Hok. discriminate. }
  destruct (data image_array) as [|x xs] eqn:Hdata.
  { destruct (save_exr_aces_refused_early env image_array filepath
                colorspace compression pixel_type w (or_intror Hdata))
      as [msg Hr]. rewrite Hr in Hok. discriminate. }
  destruct (shape_of_length_three image_array Hlen) as (h & wd & c & Hshape).
  destruct (save_exr_aces_inv env image_array filepath colorspace compression
              pixel_type w h wd c (fold_left fmax xs x) Hshape)
    as (spec & range & done & Hw & Hh & Hc & Hf & _ & Hr);
    [by rewrite Hdata|].
  rewrite Hr in Hok |- *.
  destruct (oiio env w filepath spec image_array) as [| |n|n|msg] eqn:Ho;
    try discriminate.
  exists h, wd, c, spec, n. simpl.
  repeat (split; [done|]). split; [apply lookup_insert_eq | done].
Qed.

Lemma X17_exr_success_is_a_recorded_write_witness :
  exists (h wd c : nat) (spec : ImageSpec) (n : nat),
    shape Demo.green_pixel = [h; wd; c] /\ data Demo.green_pixel <> [] /\
    oiio Demo.env Demo.world "output/render.exr" spec Demo.green_pixel
    = Written n /\
    width spec = wd /\ height spec = h /\ nchannels spec = c /\
    format spec = (if decide ("float" = "half") then HALF else FLOAT) /\
    files (snd (save_exr_aces Demo.env Demo.green_pixel "output/render.exr"
                  "ACEScg" "zip" "float" Demo.world))
      !! "output/render.exr" = Some n /\
    exr_writes (snd (save_exr_aces Demo.env Demo.green_pixel
                       "output/render.exr" "ACEScg" "zip" "float"
                       Demo.world))
    = exr_writes Demo.world ++ [("output/render.exr", spec, Demo.green_pixel)]
    /\
    requests (snd (save_exr_aces Demo.env Demo.green_pixel
                     "output/render.exr" "ACEScg" "zip" "float" Demo.world))
    = requests Demo.world.
Proof.
  apply (X17_exr_success_is_a_recorded_write Demo.env Demo.green_pixel
           "output/render.exr" "ACEScg" "zip" "float" Demo.world).
  vm_compute. reflexivity.
Defined.

(** X18: an array that is not three-dimensional, or that holds no sample,
    never reaches the EXR library: whatever the library would do,
    [save_exr_aces] raises nothing, answers failure with a message that
    starts with [Ошибка EXR: ] and leaves the world as it is. *)
Theorem X18_unfit_array_never_reaches_library {T : Type} `{Sample T}
    (env : Env T) (image_array : ndarray T)
    (filepath colorspace compression pixel_type : string) (w : World T) :
  length (shape image_array) <> 3 \/ data image_array = [] ->
  exists msg,
    save_exr_aces env image_array filepath colorspace compression pixel_type w
    = ((false, "Ошибка EXR: " +:+ msg), w).
Proof. apply save_exr_aces_refused_early. Qed.

Lemma X18_unfit_array_never_reaches_library_witness :
  exists msg,
    save_exr_aces Demo.env (NDArray [2; 2] [1%Q; 1%Q; 1%Q; 1%Q])
      "output/render.exr" "ACEScg" "zip" "half" Demo.world
    = ((false, "Ошибка EXR: " +:+ msg), Demo.world).
Proof.
  apply (X18_unfit_array_never_reaches_library Demo.env).
  left. simpl. lia.
Defined.

(** X19: the metadata handed to the library. For a three-dimensional array
    with maximum [max_val], success depends on the answer of the library
    for one specification, which always carries the compression and the
    colour space (under [oiio:ColorSpace] and [ColorSpace]), and which
    carries the attribute [HDR = true] if and only if [max_val > 1.0]. *)
Theorem X19_hdr_flag_iff_maximum_above_one {T : Type} `{Sample T}
    (env : Env T) (image_array : ndarray T)
    (filepath colorspace compression pixel_type : string) (w : World T)
    (h wd c : nat) (max_val : T) :
  shape image_array = [h; wd; c] ->
  reduce fmax (data image_array) = Some max_val ->
  exists spec : ImageSpec,
    (fst (fst (save_exr_aces env image_array filepath colorspace compression
                 pixel_type w)) = true <->
     exists n, oiio env w filepath spec image_array = Written n) /\
    In ("compression", compression) (attributes spec) /\
    In ("oiio:ColorSpace", colorspace) (attributes spec) /\
    In ("ColorSpace", colorspace) (attributes spec) /\
    (In ("HDR", "true") (attributes spec) <-> flt (flit 1) max_val = true).
Proof.
  intros Hshape Hmax.
  destruct (save_exr_aces_inv env image_array filepath colorspace compression
              pixel_type w h wd c max_val Hshape Hmax)
    as (spec & range & done & _ & _ & _ & _ & Hattrs & Hr).
  exists spec. split.
  { rewrite Hr. destruct (oiio env w filepath spec image_array); simpl;
      split; try discriminate; try (by intros [? ?]); by eexists. }
  rewrite Hattrs. rewrite !in_app_iff.
  split; [left; simpl; tauto|]. split; [left; simpl; tauto|].
  split; [left; simpl; tauto|].
  split.
  - intros [Hin|[Hin|[Hin|Hin]]].
    + simpl in Hin.
      repeat (destruct Hin as [Hin|Hin]; [discriminate Hin|]). done.
    + unfold colorspace_attributes in Hin.
      repeat case_decide; simpl in Hin;
        repeat (destruct Hin as [Hin|Hin]; [discriminate Hin|]); done.
    + simpl in Hin. destruct Hin as [Hin|[]]. discriminate Hin.
    + by destruct (flt (flit 1) max_val).
  - intros ->. right; right; right. by left.
Qed.

Lemma X19_hdr_flag_iff_maximum_above_one_witness :
  exists spec : ImageSpec,
    (fst (fst (save_exr_aces Demo.env Demo.raw_frame "output/render.exr"
                 "ACEScg" "zip" "half" Demo.world)) = true <->
     exists n, oiio Demo.env Demo.world "output/render.exr" spec
                 Demo.raw_frame = Written n) /\
    In ("compression", "zip") (attributes spec) /\
    In ("oiio:ColorSpace", "ACEScg") (attributes spec) /\
    In ("ColorSpace", "ACEScg") (attributes spec) /\
    (In ("HDR", "true") (attributes spec) <-> flt (flit 1) (1.5%Q) = true).
Proof.
  apply (X19_hdr_flag_iff_maximum_above_one Demo.env Demo.raw_frame
           "output/render.exr" "ACEScg" "zip" "half" Demo.world 1 1 3);
    reflexivity.
Defined.

(** X20: [save_exr_aces] touches nothing but its own file: every other path
    keeps its file, the log of network requests is unchanged, and at most
    one image, the one it was given under the path it was given, is added to
    those handed to the library. *)
Theorem X20_exr_writer_touches_only_its_file {T : Type} `{Sample T}
    (env : Env T) (image_array : ndarray T)
    (filepath colorspace compression pixel_type : string) (w : World T) :
  let w' := snd (save_exr_aces env image_array filepath colorspace
                   compression pixel_type w) in
  (forall p, p <> filepath -> files w' !! p = files w !! p) /\
  requests w' = requests w /\
  (exr_writes w' = exr_writes w \/
   exists spec, exr_writes w' = exr_writes w ++ [(filepath, spec, image_array)]).
Proof.
  intros w'. subst w'.
  destruct (decide (length (shape image_array) = 3)) as [Hlen|Hlen].
  2:{ destruct (save_exr_aces_refused_early env image_array filepath
                  colorspace compression pixel_type w (or_introl Hlen))
        as [msg ->]. simpl. auto. }
  destruct (data image_array) as [|x xs] eqn:Hdata.
  { destruct (save_exr_aces_refused_early env image_array filepath
                colorspace compression pixel_type w (or_intror Hdata))
      as [msg ->]. simpl. auto. }
  destruct (shape_of_length_three image_array Hlen) as (h & wd & c & Hshape).
  destruct (save_exr_aces_inv env image_array filepath colorspace compression
              pixel_type w h wd c (fold_left fmax xs x) Hshape)
    as (spec & range & done & _ & _ & _ & _ & _ & ->);
    [by rewrite Hdata|].
  destruct (oiio env w filepath spec image_array); simpl; auto;
    (split; [intros p Hp; by rewrite lookup_insert_ne|]);
    (split; [reflexivity | right; by exists spec]).
Qed.

(** ** File names of a batch *)

Lemma decimal_value_digits (fuel n : nat) (acc : string) :
  n < fuel ->
  decimal_value (Py.digits_fuel fuel n acc)
  = n * 10 ^ String.length acc + decimal_value acc.
Proof.
  revert n acc. induction fuel as [|fuel IH]; intros n acc Hn; [lia|].
  cbn [Py.digits_fuel].
  assert (Hdigit : nat_of_ascii (ascii_of_nat (48 + n mod 10)) - 48
                   = n mod 10).
  { rewrite nat_ascii_embedding; [lia|].
    pose proof (Nat.mod_upper_bound n 10). lia. }
  destruct (Nat.ltb_spec n 10) as [Hsmall|Hbig].
  - cbn [decimal_value]. rewrite Hdigit, Nat.mod_small by done. reflexivity.
  - rewrite IH by (pose proof (Nat.div_lt n 10); lia).
    cbn [decimal_value String.length]. rewrite Hdigit.
    rewrite Nat.pow_succ_r'.
    pose proof (Nat.div_mod_eq n 10) as Hn10.
    generalize dependent (10 ^ String.length acc). intros p.
    generalize dependent (n / 10). intros q.
    generalize dependent (n mod 10). intros r. intros. subst n. nia.
Qed.

Lemma decimal_value_cons (c : ascii) (rest : string) :
  decimal_value (String c rest)
  = (nat_of_ascii c - 48) * 10 ^ String.length rest + decimal_value rest.
Proof. reflexivity. Qed.

Lemma decimal_value_str_nat (n : nat) : decimal_value (Py.str_nat n) = n.
Proof.
  unfold Py.str_nat. rewrite decimal_value_digits by lia.
  cbn [String.length decimal_value]. rewrite Nat.pow_0_r. lia.
Qed.

Lemma decimal_value_zfill (w : nat) (s : string) :
  decimal_value (Py.zfill w s) = decimal_value s.
Proof.
  unfold Py.zfill. induction (w - String.length s) as [|k IH]; [reflexivity|].
  change (decimal_value
            (String "0" (string_of_list_ascii (repeat "0"%char k) +:+ s))
          = decimal_value s).
  rewrite decimal_value_cons, IH. change (nat_of_ascii "0") with 48. lia.
Qed.

Lemma length_append (a b : string) :
  String.length (a +:+ b) = String.length a + String.length b.
Proof. induction a as [|c a IH]; simpl; [reflexivity | by rewrite IH]. Qed.

Lemma append_inj_r (a b s : string) : a +:+ s = b +:+ s -> a = b.
Proof.
  intros Heq. apply (append_inj_length a b s s); [|exact Heq].
  apply (f_equal String.length) in Heq. rewrite !length_append in Heq. lia.
Qed.

Lemma batch_filename_inj (filename_prefix : string) (i j : nat) :
  batch_filename filename_prefix i = batch_filename filename_prefix j ->
  i = j.
Proof.
  unfold batch_filename. intros Heq.
  apply append_inj_length in Heq as [_ Heq]; [|reflexivity].
  cbn [String.append] in Heq.
  injection Heq as Heq.
  change (Py.zfill 5 (Py.str_nat i) +:+ ".exr"
          = Py.zfill 5 (Py.str_nat j) +:+ ".exr") in Heq.
  apply append_inj_r in Heq.
  apply (f_equal decimal_value) in Heq.
  by rewrite !decimal_value_zfill, !decimal_value_str_nat in Heq.
Qed.

(** [os.path.join] treats two names with the same first character alike:
    either both are taken alone, or both are put behind the directory. *)
Lemma path_join_same_head (a : string) (c : ascii) (r1 r2 : string) :
  (Py.path_join a (String c r1) = String c r1 /\
   Py.path_join a (String c r2) = String c r2) \/
  exists sep,
    Py.path_join a (String c r1) = a +:+ sep +:+ String c r1 /\
    Py.path_join a (String c r2) = a +:+ sep +:+ String c r2.
Proof.
  unfold Py.path_join.
  destruct (bool_decide (a = "") || Py.ends_with_slash a).
  - destruct c as [[] [] [] [] [] [] [] []];
      first [ left; split; reflexivity
            | right; exists ""; split; reflexivity ].
  - destruct c as [[] [] [] [] [] [] [] []];
      first [ left; split; reflexivity
            | right; exists "/"; split; reflexivity ].
Qed.

Lemma batch_filepath_inj {T : Type} (env : Env T) (filename_prefix : string)
    (i j : nat) :
  batch_filepath env filename_prefix i = batch_filepath env filename_prefix j
  -> i = j.
Proof.
  unfold batch_filepath. intros Heq.
  apply (batch_filename_inj filename_prefix).
  assert (Hhead : exists c r1 r2,
             batch_filename filename_prefix i = String c r1 /\
             batch_filename filename_prefix j = String c r2).
  { unfold batch_filename. destruct filename_prefix as [|c p].
    - by eexists "_"%char, _, _.
    - by eexists c, _, _. }
  destruct Hhead as (c & r1 & r2 & Hi & Hj). rewrite Hi, Hj in Heq |- *.
  destruct (path_join_same_head (output_dir env) c r1 r2)
    as [[H1 H2]|(sep & H1 & H2)]; rewrite H1, H2 in Heq; [exact Heq|].
  apply append_inj_length in Heq as [_ Heq]; [|reflexivity].
  by apply append_inj_length in Heq as [_ Heq].
Qed.

(** X21: the frames of a batch never overwrite each other, nor the file of a
    single image: two different frame indices give two different file paths
    in the output directory, whatever the prefix, and no frame is named
    [<prefix>.exr]. The index can be read back from the padded number. *)
Theorem X21_batch_frames_get_distinct_files {T : Type} (env : Env T)
    (filename_prefix : string) (i j : nat) :
  i <> j ->
  batch_filepath env filename_prefix i <> batch_filepath env filename_prefix j
  /\ batch_filename filename_prefix i <> single_filename filename_prefix
  /\ decimal_value (Py.zfill 5 (Py.str_nat i)) = i.
Proof.
  intros Hij. split; [|split].
  - intros Heq. by apply batch_filepath_inj in Heq.
  - unfold batch_filename, single_filename. intros Heq.
    apply append_inj_length in Heq as [_ Heq]; [|reflexivity].
    discriminate Heq.
  - by rewrite decimal_value_zfill, decimal_value_str_nat.
Qed.

Lemma X21_batch_frames_get_distinct_files_witness :
  batch_filepath Demo.env "render" 7 <> batch_filepath Demo.env "render" 123.
Proof.
  apply (X21_batch_frames_get_distinct_files Demo.env "render" 7 123). lia.
Defined.

(** ** The save operation: network and library traffic *)

Lemma resolver_exr_writes {T : Type} (env : Env T)
    (source path url preset : string) (w : World T) :
  exr_writes (snd (find_or_download_ocio_config env source path url preset w))
  = exr_writes w.
Proof.
  unfold find_or_download_ocio_config.
  repeat case_decide; try reflexivity;
    repeat match goal with
      | |- context [exists_path ?w ?p] => destruct (exists_path w p)
      | |- context [preset_ocio_urls !! ?k] => destruct (preset_ocio_urls !! k)
      | |- context [find ?f ?l] => destruct (find f l)
      | |- context [decide ?P] => destruct (decide P)
      end;
    try reflexivity; apply download_exr_writes.
Qed.

Section Traffic.
Context {T : Type} `{Sample T}.
Variable env : Env T.
Variable images : ndarray T.
Variables filename_prefix colorspace compression pixel_type : string.
Variable input_colorspace : string.

Lemma quiet_refl (n : nat) (w : World T) : quiet n w w.
Proof. split; [reflexivity | lia]. Qed.

Lemma save_exr_aces_quiet (image_array : ndarray T) (filepath : string)
    (w : World T) :
  quiet 1 w (snd (save_exr_aces env image_array filepath colorspace
                    compression pixel_type w)).
Proof.
  destruct (decide (length (shape image_array) = 3)) as [Hlen|Hlen].
  2:{ destruct (save_exr_aces_refused_early env image_array filepath
                  colorspace compression pixel_type w (or_introl Hlen))
        as [msg ->]. apply quiet_refl. }
  destruct (data image_array) as [|x xs] eqn:Hdata.
  { destruct (save_exr_aces_refused_early env image_array filepath
                colorspace compression pixel_type w (or_intror Hdata))
      as [msg ->]. apply quiet_refl. }
  destruct (shape_of_length_three image_array Hlen) as (h & wd & c & Hshape).
  destruct (save_exr_aces_inv env image_array filepath colorspace compression
              pixel_type w h wd c (fold_left fmax xs x) Hshape)
    as (spec & range & done & _ & _ & _ & _ & _ & ->);
    [by rewrite Hdata|].
  destruct (oiio env w filepath spec image_array); try apply quiet_refl;
    (split; [reflexivity | simpl; rewrite length_app; simpl; lia]).
Qed.

Lemma batch_frame_quiet (total_frames i : nat) (acc : report) (w : World T) :
  quiet 1 w (snd (batch_frame env images filename_prefix colorspace
                    compression pixel_type input_colorspace total_frames i
                    acc w)).
Proof.
  destruct acc as [saved infos]. rewrite batch_frame_eq.
  destruct (frame_conversion _ _ _ _) as [[converted conv_info]|e];
    [|apply quiet_refl].
  apply save_exr_aces_quiet.
Qed.

Lemma batch_loop_quiet (total_frames : nat) (indices : list nat)
    (acc : report) (w : World T) :
  quiet (length indices) w
    (snd (batch_loop env images filename_prefix colorspace compression
            pixel_type input_colorspace total_frames indices acc w)).
Proof.
  revert acc w. induction indices as [|i rest IH]; intros acc w;
    [apply quiet_refl|].
  cbn [batch_loop length].
  pose proof (batch_frame_quiet total_frames i acc w) as [Hr Hw].
  destruct (batch_frame _ _ _ _ _ _ _ _ _ _ _) as [[acc'|e] w'];
    simpl in Hr, Hw.
  - destruct (IH acc' w') as [Hr' Hw']. split; [congruence | lia].
  - split; [exact Hr | simpl; lia].
Qed.

Lemma single_image_quiet (acc : report) (w : World T) :
  quiet 1 w (snd (single_image env images filename_prefix colorspace
                    compression pixel_type input_colorspace acc w)).
Proof.
  unfold single_image. destruct acc as [saved infos].
  destruct (if (length (shape images) =? 4)%nat then getitem images 0
            else Returns images) as [image_tensor|e]; [|apply quiet_refl].
  destruct (convert_colorspace _ _ _) as [[converted conv_info]|e];
    [|apply quiet_refl].
  pose proof (save_exr_aces_quiet converted
                (Py.path_join (output_dir env)
                   (single_filename filename_prefix)) w) as Hq.
  destruct (save_exr_aces _ _ _ _ _ _ _) as [[success format_info] w'].
  by destruct success.
Qed.

End Traffic.

(** X22: the frames cost no network traffic. Without OpenImageIO the save
    operation changes nothing at all. With it, the requests after the save
    are those after the one resolution of the configuration, whatever the
    number of frames and whether or not an exception ends the loop, and the
    library receives at most one image per frame. *)
Theorem X22_frames_add_no_network_request {T : Type} `{Sample T}
    (env : Env T) (images : ndarray T)
    (filename_prefix colorspace compression pixel_type input_colorspace
       source path url preset : string) (w : World T) :
  let w1 := snd (find_or_download_ocio_config env source path url preset w) in
  let w' := snd (save_aces_exr env images filename_prefix colorspace
                   compression pixel_type input_colorspace source path url
                   preset w) in
  (OIIO_AVAILABLE env = false -> w' = w) /\
  (OIIO_AVAILABLE env = true ->
   requests w' = requests w1 /\
   length (exr_writes w')
   <= length (exr_writes w)
      + (if is_batch images then hd 0 (shape images) else 1)).
Proof.
  intros w1 w'. subst w1 w'. unfold save_aces_exr.
  split; intros Hoiio; rewrite Hoiio; [reflexivity|]. cbn [negb].
  pose proof (resolver_exr_writes env source path url preset w) as Hres.
  destruct (find_or_download_ocio_config env source path url preset w)
    as [resolved w1]. cbn [snd] in *.
  assert (Hq : quiet (if is_batch images then hd 0 (shape images) else 1) w1
                 (snd (save_frames env images filename_prefix colorspace
                         compression pixel_type input_colorspace w1))).
  { unfold save_frames. destruct (is_batch images).
    - pose proof (batch_loop_quiet env images filename_prefix colorspace
                    compression pixel_type input_colorspace
                    (hd 0 (shape images)) (seq 0 (hd 0 (shape images)))
                    ([], []) w1) as Hloop.
      by rewrite length_seq in Hloop.
    - apply single_image_quiet. }
  destruct (save_frames _ _ _ _ _ _ _ _) as [[[saved infos]|e] w2];
    destruct Hq as [Hr Hw]; cbn [snd] in *; rewrite Hres in Hw;
    (split; [exact Hr | exact Hw]).
Qed.

Lemma X22_frames_add_no_network_request_witness :
  requests (snd (save_aces_exr Demo.env Demo.batch_of_three "render" "ACEScg"
                   "zip" "half" "sRGB" "URL" "" Demo.url_a "" Demo.world))
  = [Demo.url_a] /\
  length (exr_writes (snd (save_aces_exr Demo.env Demo.batch_of_three "render"
                             "ACEScg" "zip" "half" "sRGB" "URL" ""
                             Demo.url_a "" Demo.world))) <= 0 + 3.
Proof.
  apply (X22_frames_add_no_network_request Demo.env Demo.batch_of_three
           "render" "ACEScg" "zip" "half" "sRGB" "URL" "" Demo.url_a ""
           Demo.world).
  reflexivity.
Defined.

(** ** The package loader *)

Section Loader.
Import Package.

Lemma update_lookup (d new : gmap string string) (k : string) :
  update d new !! k
  = match new !! k with Some v => Some v | None => d !! k end.
Proof.
  unfold update. rewrite lookup_union. by destruct (new !! k), (d !! k).
Qed.

Lemma load_empty_classes (r o b : import_outcome) :
  NODE_CLASS_MAPPINGS (load r o b) = ∅ -> load r o b = no_tables.
Proof.
  unfold load.
  destruct (try_module r no_tables) as [t1|]; [|done].
  destruct (try_module o t1) as [t2|]; [|done].
  destruct (try_module b t2) as [t3|]; [|done].
  case_bool_decide; [done|]. intros Hempty. by destruct t3.
Qed.

End Loader.

(** X23: when the three modules import, a node name defined by several of
    them gets the class and the display name of the last one imported:
    [aces_exr_save] wins over [aces_exr_save_ocio], which wins over
    [robust_aces_save]. *)
Theorem X23_later_module_overrides_earlier
    (ncm_r ndm_r ncm_o ndm_o ncm_b ndm_b : gmap string string)
    (k class : string) :
  let t := Package.load (Package.Imported ncm_r ndm_r)
             (Package.Imported ncm_o ndm_o) (Package.Imported ncm_b ndm_b) in
  Package.NODE_CLASS_MAPPINGS t !! k = Some class ->
  Package.NODE_CLASS_MAPPINGS t !! k
  = match ncm_b !! k with
    | Some v => Some v
    | None => match ncm_o !! k with Some v => Some v | None => ncm_r !! k end
    end /\
  Package.NODE_DISPLAY_NAME_MAPPINGS t !! k
  = match ndm_b !! k with
    | Some v => Some v
    | None => match ndm_o !! k with Some v => Some v | None => ndm_r !! k end
    end.
Proof.
  intros t. subst t. unfold Package.load. cbn [Package.try_module].
  cbn [Package.NODE_CLASS_MAPPINGS Package.NODE_DISPLAY_NAME_MAPPINGS
       Package.no_tables].
  case_bool_decide as Hempty;
    cbn [Package.NODE_CLASS_MAPPINGS Package.NODE_DISPLAY_NAME_MAPPINGS
         Package.no_tables].
  - rewrite lookup_empty. discriminate.
  - intros _. rewrite !update_lookup, !lookup_empty.
    split; [by destruct (ncm_b !! k), (ncm_o !! k), (ncm_r !! k)
           | by destruct (ndm_b !! k), (ndm_o !! k), (ndm_r !! k)].
Qed.

Lemma X23_later_module_overrides_earlier_witness :
  Package.NODE_CLASS_MAPPINGS
    (Package.load (Package.Imported {[ "Save" := "RobustSave" ]} ∅)
       Package.aces_exr_save_ocio_module
       (Package.Imported {[ "Save" := "BasicSave" ]} ∅)) !! "Save"
  = Some "BasicSave".
Proof.
  destruct (X23_later_module_overrides_earlier
              {[ "Save" := "RobustSave" ]} ∅
              {[ "ACESEXRSaveOCIO" := "ACESEXRSaveOCIO" ]}
              {[ "ACESEXRSaveOCIO" := "Save ACES EXR (OCIO)" ]}
              {[ "Save" := "BasicSave" ]} ∅ "Save" "BasicSave")
    as [Hclass _]; [vm_compute; reflexivity|].
  etransitivity; [exact Hclass | vm_compute; reflexivity].
Defined.

(** X24: what the loader falls back to. An exception other than ImportError
    in any of the three imports empties both tables, even when an earlier
    module had registered nodes; so do three ImportErrors; and the tables
    never hold a display name without a class: an empty class table means
    two empty tables. With [aces_exr_save_ocio] as the only module that
    imports, the package registers exactly its node. *)
Theorem X24_loader_fallback (r o b : Package.import_outcome) :
  (Package.NODE_CLASS_MAPPINGS (Package.load r o b) = ∅ ->
   Package.load r o b = Package.no_tables) /\
  ((exists msg, r = Package.RaisesOther msg) \/
   (exists msg, o = Package.RaisesOther msg) \/
   (exists msg, b = Package.RaisesOther msg) ->
   Package.load r o b = Package.no_tables) /\
  ((exists m1 m2 m3, r = Package.RaisesImportError m1
                     /\ o = Package.RaisesImportError m2
                     /\ b = Package.RaisesImportError m3) ->
   Package.load r o b = Package.no_tables) /\
  (forall m1 m3,
      Package.load (Package.RaisesImportError m1)
        Package.aces_exr_save_ocio_module (Package.RaisesImportError m3)
      = {| Package.NODE_CLASS_MAPPINGS :=
             {[ "ACESEXRSaveOCIO" := "ACESEXRSaveOCIO" ]};
           Package.NODE_DISPLAY_NAME_MAPPINGS :=
             {[ "ACESEXRSaveOCIO" := "Save ACES EXR (OCIO)" ]} |}).
Proof.
  split; [apply load_empty_classes|]. split; [|split].
  - intros [[msg ->]|[[msg ->]|[msg ->]]]; unfold Package.load.
    + reflexivity.
    + by destruct (Package.try_module r _).
    + destruct (Package.try_module r _) as [t1|]; [|done].
      by destruct (Package.try_module o t1).
  - intros (m1 & m2 & m3 & -> & -> & ->). reflexivity.
  - intros m1 m3. vm_compute. reflexivity.
Qed.

(** ** Inputs that are not images *)

Lemma convert_shape {T : Type} `{Sample T} (image result : ndarray T)
    (input_cs output_cs description : string) :
  convert_colorspace image input_cs output_cs
  = Returns (result, description) ->
  shape result = shape image.
Proof.
  intros Hconv.
  destruct (decide (input_cs = output_cs)) as [->|Hne].
  { rewrite convert_same in Hconv. by injection Hconv as <- _. }
  destruct (decide ((input_cs, output_cs) ∈ matrix_pairs)) as [Hin|Hout].
  2:{ rewrite (convert_outside_matrix_pairs image _ _ Hne Hout) in Hconv.
      by injection Hconv as <- _. }
  unfold matrix_pairs in Hin. rewrite !elem_of_cons in Hin.
  destruct Hin as [[= -> ->]|[[= -> ->]|[[= -> ->]|[[= -> ->]|Hin]]]].
  - rewrite convert_srgb_aces2065 in Hconv.
    destruct (matrix_transform _ _) as [r|] eqn:Hr; [|discriminate].
    injection Hconv as <- _. by apply shape_matrix_transform in Hr.
  - rewrite convert_aces2065_acescg in Hconv.
    destruct (matrix_transform _ _) as [r|] eqn:Hr; [|discriminate].
    injection Hconv as <- _. by apply shape_matrix_transform in Hr.
  - rewrite convert_srgb_acescg in Hconv.
    destruct (matrix_transform (srgb_to_linear image) _) as [r|] eqn:Hr;
      [|discriminate]. simpl in Hconv.
    destruct (matrix_transform r _) as [r'|] eqn:Hr'; [|discriminate].
    injection Hconv as <- _.
    apply shape_matrix_transform in Hr, Hr'. by rewrite Hr', Hr.
  - change (convert_colorspace image "Linear sRGB" "ACES2065-1")
      with (try! result <- matrix_transform image SRGB_TO_ACES2065_MATRIX;
            Returns (result, "Matrix: Linear sRGB -> ACES2065-1")) in Hconv.
    destruct (matrix_transform _ _) as [r|] eqn:Hr; [|discriminate].
    injection Hconv as <- _. by apply shape_matrix_transform in Hr.
  - by apply elem_of_nil in Hin.
Qed.

(** X25: an input whose rank is neither 3 nor 4 (a single channel plane, a
    scalar, a 5-dimensional stack) is never written. When its conversion
    does not raise, the save operation returns the empty path and the one
    report entry [ОШИБКА - Ошибка EXR: ...]; the EXR library is not called
    and the world is the one the resolution of the configuration left. *)
Theorem X25_wrong_rank_is_reported_not_written {T : Type} `{Sample T}
    (env : Env T) (images : ndarray T)
    (filename_prefix colorspace compression pixel_type input_colorspace
       source path url preset : string) (w : World T) :
  OIIO_AVAILABLE env = true ->
  length (shape images) <> 3 ->
  length (shape images) <> 4 ->
  size images mod 3 = 0 \/ input_colorspace = colorspace
    \/ (input_colorspace, colorspace) ∉ matrix_pairs ->
  exists msg,
    save_aces_exr env images filename_prefix colorspace compression pixel_type
      input_colorspace source path url preset w
    = (Returns ("", "ОШИБКА - Ошибка EXR: " +:+ msg),
       snd (find_or_download_ocio_config env source path url preset w)).
Proof.
  intros Hoiio H3 H4 Hfits. unfold save_aces_exr. rewrite Hoiio. cbn [negb].
  destruct (find_or_download_ocio_config env source path url preset w)
    as [resolved w1]. cbn [snd].
  unfold save_frames, is_batch, single_image.
  destruct (Nat.eqb_spec (length (shape images)) 4) as [|_]; [done|].
  cbn [andb].
  assert (Hsize : size (tensor_to_numpy images) mod 3 = 0
                  \/ input_colorspace = colorspace
                  \/ (input_colorspace, colorspace) ∉ matrix_pairs).
  { destruct Hfits as [Hs|Hrest]; [left | by right].
    unfold size. by rewrite shape_tensor_to_numpy. }
  destruct (convert_returns _ _ _ Hsize) as [[converted conv_info] Hconv].
  rewrite Hconv.
  assert (Hrank : length (shape converted) <> 3).
  { rewrite (convert_shape _ _ _ _ _ Hconv).
    by rewrite shape_tensor_to_numpy. }
  destruct (save_exr_aces_refused_early env converted
              (Py.path_join (output_dir env)
                 (single_filename filename_prefix))
              colorspace compression pixel_type w1 (or_introl Hrank))
    as [msg ->].
  by exists msg.
Qed.

Lemma X25_wrong_rank_is_reported_not_written_witness :
  exists msg,
    save_aces_exr Demo.env (NDArray [2; 2] [1%Q; 1%Q; 1%Q; 1%Q]) "render"
      "ACEScg" "zip" "half" "ACEScg" "Local Path" "" "" "" Demo.world
    = (Returns ("", "ОШИБКА - Ошибка EXR: " +:+ msg),
       snd (find_or_download_ocio_config Demo.env "Local Path" "" "" ""
              Demo.world)).
Proof.
  apply (X25_wrong_rank_is_reported_not_written Demo.env).
  - reflexivity.
  - simpl. lia.
  - simpl. lia.
  - right. by left.
Defined.
